(** * GivingApi: the donation webhook controller

    A shallow embedding of [DonateController] (routes [/donate/log],
    [/donate/webhook/:provider], [/donate/subscribe]) together with the
    private helpers [logDonation] and [loadPrivateKey].

    The controller is asynchronous TypeScript.  Every [await] is a
    sequencing point, so the closure handed to the action wrapper is
    modelled as a state-passing computation over the repository tables
    that either returns a value or throws.  A throw keeps the writes made
    before it: nothing in the controller rolls back. *)

From Stdlib Require Import String Ascii List ZArith QArith Bool Lia.
Import ListNotations.

Open Scope string_scope.
Open Scope list_scope.

(** ** JavaScript values used by the controller *)

Module Js.

(** A field read from an untyped object is [None] when it is [undefined].
    Strings are ASCII. *)

Definition truthy (v : option string) : bool :=
  match v with
  | Some s => negb (s =? EmptyString)
  | None => false
  end.

Definition truthy_num (v : option Q) : bool :=
  match v with
  | Some q => negb (Qeq_bool q 0)
  | None => false
  end.

(** String conversion of a possibly undefined operand of [+]. *)
Definition to_str (v : option string) : string :=
  match v with
  | Some s => s
  | None => "undefined"
  end.

(** A number after arithmetic: [undefined / 100] is [NaN].  Finite values
    are kept as exact rationals. *)
Inductive number : Type :=
| Num (q : Q)
| NaN.

Definition lower_ascii (c : ascii) : ascii :=
  let n := nat_of_ascii c in
  if (65 <=? n)%nat && (n <=? 90)%nat then ascii_of_nat (n + 32) else c.

Fixpoint toLowerCase (s : string) : string :=
  match s with
  | EmptyString => EmptyString
  | String c t => String (lower_ascii c) (toLowerCase t)
  end.

Fixpoint includes (needle hay : string) : bool :=
  prefix needle hay ||
  match hay with
  | EmptyString => false
  | String _ t => includes needle t
  end.

(** The names every plain object answers to through [Object.prototype]. *)
Definition object_prototype : list string :=
  [ "constructor"; "__defineGetter__"; "__defineSetter__"; "hasOwnProperty";
    "__lookupGetter__"; "__lookupSetter__"; "isPrototypeOf";
    "propertyIsEnumerable"; "toString"; "valueOf"; "__proto__"; "toLocaleString" ].

Definition inherited (name : string) : bool :=
  existsb (String.eqb name) object_prototype.

(** What [table[name]] gives on a table of strings: the string stored
    under the name, else the value [Object.prototype] holds under it (a
    function, or the prototype itself), else [undefined]. *)
Inductive label : Type :=
| Label (s : string)
| Inherited (name : string)
| NoLabel.

End Js.

(** ** Models (src/models) *)

Record Gateway := {
  g_churchId : string;
  g_privateKey : string;
  g_webhookKey : string;
  g_productId : option string
}.

Record EventLog := {
  el_id : string;
  el_churchId : string;
  el_customerId : option string;
  el_provider : string;
  el_eventType : string;
  el_status : option string;
  el_message : option string;
  el_created : Z
}.

Record Customer := {
  c_id : string;
  c_churchId : string;
  c_personId : option string
}.

Record DonationBatch := {
  b_id : string;
  b_churchId : string;
  b_current : bool
}.

Record Donation := {
  d_id : option string;
  d_churchId : string;
  d_batchId : option string;
  d_amount : Js.number;
  d_personId : option string;
  d_method : Js.label;
  d_methodDetails : option string;
  d_donationDate : option Z
}.

Record FundDonation := {
  fd_id : option string;
  fd_churchId : string;
  fd_donationId : option string;
  fd_fundId : option string;
  fd_amount : Q
}.

Record Subscription := {
  s_id : string;
  s_churchId : string;
  s_personId : option string;
  s_customerId : option string
}.

Record SubscriptionFund := {
  sf_id : option string;
  sf_churchId : string;
  sf_subscriptionId : string;
  sf_fundId : option string;
  sf_amount : Q
}.

(** What [logDonation] reads from each element of its second argument:
    the properties [id] and [amount]. *)
Record FundData := {
  fund_id : option string;
  fund_amount : Q
}.

(** A [SubscriptionFund] row handed to [logDonation] is read through the
    same two properties; its [id] is the row's own id. *)
Definition as_fund (row : SubscriptionFund) : FundData :=
  {| fund_id := sf_id row; fund_amount := sf_amount row |}.

(** ** Provider objects (Stripe) *)

Record PaymentMethodSub := { last4 : option string }.

Record PaymentMethodDetails := {
  pmd_type : string;
  pmd_props : list (string * PaymentMethodSub)
}.

Record Metadata := { funds : option string }.

Record ChargeOutcome := { seller_message : option string }.

Record EventData := {
  subscription : option string;
  description : option string;
  created : Z;
  customer : option string;
  status : option string;
  amount : option Q;
  metadata : option Metadata;
  failure_message : option string;
  outcome : option ChargeOutcome;
  payment_method_details : option PaymentMethodDetails;
  amount_paid : option Q;
  billing_reason : option string;
  charge : option string
}.

Record StripeEvent := {
  ev_id : string;
  ev_type : string;
  ev_data : EventData
}.

Record Charge := { ch_payment_method_details : option PaymentMethodDetails }.

Record PaymentDetails := {
  payment_method_id : option string;
  pay_amount : option Q;
  currency : string;
  pay_customer : option string;
  pay_type : option string;
  billing_cycle_anchor : option Z;
  proration_behavior : option string;
  interval : option string;
  productId : option string
}.

Record StripeSubscription := { sub_id : string }.

(** ** Requests and replies *)

Record WebhookRequest := {
  query_churchId : option string;
  header_stripe_signature : option string;
  rawBody : string
}.

Record LogRequest := {
  log_headers : list (string * string);
  body_donation : Donation;
  body_fundData : FundData
}.

Record Person := { p_id : option string }.

Record SubscribeBody := {
  sb_id : option string;
  sb_amount : option Q;
  sb_customerId : option string;
  sb_type : option string;
  sb_billing_cycle_anchor : option Z;
  sb_proration_behavior : option string;
  sb_interval : option string;
  sb_funds : option (list FundData);
  sb_person : option Person
}.

(** The value the closure resolves with: [this.json({}, status)], nothing
    ([undefined]), or the rows of [Promise.all]. *)
Inductive Reply : Type :=
| Json (status : nat)
| Undefined
| Rows (rows : list SubscriptionFund).

(** ** Outcomes and tasks *)

Inductive Error : Type :=
| TypeError
| SyntaxError
| InvalidSignature
| ProviderError
| PersistenceFailure.

Inductive Outcome (A : Type) : Type :=
| Returned (a : A)
| Thrown (e : Error).

Arguments Returned {A} a.
Arguments Thrown {A} e.

Record DB := {
  gateways : list Gateway;
  eventLogs : list EventLog;
  customers : list Customer;
  donationBatches : list DonationBatch;
  donations : list Donation;
  fundDonations : list FundDonation;
  subscriptions : list Subscription;
  subscriptionFunds : list SubscriptionFund;
  nextId : nat
}.

Definition Task (A : Type) : Type := DB -> Outcome A * DB.

Definition ret {A} (a : A) : Task A := fun db => (Returned a, db).

Definition throw {A} (e : Error) : Task A := fun db => (Thrown e, db).

Definition bind {A B} (m : Task A) (k : A -> Task B) : Task B :=
  fun db =>
    match m db with
    | (Returned a, db') => k a db'
    | (Thrown e, db') => (Thrown e, db')
    end.

Definition lift {A} (o : Outcome A) : Task A := fun db => (o, db).

Notation "x <- m ;; k" := (bind m (fun x => k))
  (at level 61, m at next level, right associativity).
Notation "m ;;; k" := (bind m (fun _ => k))
  (at level 61, right associativity).

(** [x.toString()] on a value that may be undefined. *)
Definition toString (v : option string) : Task string :=
  match v with
  | Some s => ret s
  | None => throw TypeError
  end.

(** [Promise.all] over promises created in a [forEach]: every call has
    been started, so every one runs; the result rejects when one of them
    rejected, and the writes of the others stay. *)
Fixpoint promise_all {A} (ps : list (Task A)) : Task (list A) :=
  fun db =>
    match ps with
    | [] => (Returned [], db)
    | p :: rest =>
        let (o, db1) := p db in
        let (os, db2) := promise_all rest db1 in
        (match o, os with
         | Returned a, Returned l => Returned (a :: l)
         | Thrown e, _ => Thrown e
         | Returned _, Thrown e => Thrown e
         end, db2)
    end.

(** A promise that is neither awaited nor returned: its writes happen,
    its result and its rejection reach nobody. *)
Definition not_awaited {A} (m : Task A) : Task unit :=
  fun db => (Returned tt, snd (m db)).

(** ** Collaborators *)

(** The repository calls the controller makes; the storage layer may
    refuse any of them. *)
Inductive RepoCall : Type :=
| GatewayLoadAll
| EventLogLoad
| EventLogCreate
| CustomerLoad
| SubscriptionFundLoadBySubscriptionId
| SubscriptionSave
| SubscriptionFundSave (fundId : option string)
| DonationBatchGetOrCreateCurrent
| DonationSave
| FundDonationSave (fundId : option string).

Definition update_donations (f : list Donation -> list Donation) (n : nat) (db : DB) : DB :=
  {| gateways := gateways db; eventLogs := eventLogs db; customers := customers db;
     donationBatches := donationBatches db; donations := f (donations db);
     fundDonations := fundDonations db; subscriptions := subscriptions db;
     subscriptionFunds := subscriptionFunds db; nextId := n |}.

Definition update_fundDonations (f : list FundDonation -> list FundDonation) (n : nat) (db : DB) : DB :=
  {| gateways := gateways db; eventLogs := eventLogs db; customers := customers db;
     donationBatches := donationBatches db; donations := donations db;
     fundDonations := f (fundDonations db); subscriptions := subscriptions db;
     subscriptionFunds := subscriptionFunds db; nextId := n |}.

Definition update_eventLogs (f : list EventLog -> list EventLog) (db : DB) : DB :=
  {| gateways := gateways db; eventLogs := f (eventLogs db); customers := customers db;
     donationBatches := donationBatches db; donations := donations db;
     fundDonations := fundDonations db; subscriptions := subscriptions db;
     subscriptionFunds := subscriptionFunds db; nextId := nextId db |}.

Definition update_donationBatches (f : list DonationBatch -> list DonationBatch) (n : nat) (db : DB) : DB :=
  {| gateways := gateways db; eventLogs := eventLogs db; customers := customers db;
     donationBatches := f (donationBatches db); donations := donations db;
     fundDonations := fundDonations db; subscriptions := subscriptions db;
     subscriptionFunds := subscriptionFunds db; nextId := n |}.

Definition update_subscriptions (f : list Subscription -> list Subscription) (db : DB) : DB :=
  {| gateways := gateways db; eventLogs := eventLogs db; customers := customers db;
     donationBatches := donationBatches db; donations := donations db;
     fundDonations := fundDonations db; subscriptions := f (subscriptions db);
     subscriptionFunds := subscriptionFunds db; nextId := nextId db |}.

Definition update_subscriptionFunds (f : list SubscriptionFund -> list SubscriptionFund) (n : nat) (db : DB) : DB :=
  {| gateways := gateways db; eventLogs := eventLogs db; customers := customers db;
     donationBatches := donationBatches db; donations := donations db;
     fundDonations := fundDonations db; subscriptions := subscriptions db;
     subscriptionFunds := f (subscriptionFunds db); nextId := n |}.

Definition same_id (i : string) (j : option string) : bool :=
  match j with
  | Some k => k =? i
  | None => false
  end.

(** Modelled from the spec: the repositories' [save] is not among the
    sources; the spec asks for simple save primitives scoped by tenant id
    and for a generated id.  A row without an id is stored under a fresh
    one; a row with an id replaces what its tenant had stored under that
    id.  Returns the stored row, the table and the id counter. *)
Definition save_row {A} (genId : nat -> string)
    (getId : A -> option string) (churchOf : A -> string) (setId : string -> A -> A)
    (row : A) (rows : list A) (n : nat) : A * list A * nat :=
  if Js.truthy (getId row)
  then (row,
        filter (fun r => negb (same_id (Js.to_str (getId row)) (getId r)
                               && (churchOf r =? churchOf row))) rows ++ [row],
        n)
  else let row' := setId (genId n) row in (row', rows ++ [row'], S n).

Definition set_d_id (i : string) (d : Donation) : Donation :=
  {| d_id := Some i; d_churchId := d_churchId d; d_batchId := d_batchId d;
     d_amount := d_amount d; d_personId := d_personId d; d_method := d_method d;
     d_methodDetails := d_methodDetails d; d_donationDate := d_donationDate d |}.

Definition set_d_batchId (b : option string) (d : Donation) : Donation :=
  {| d_id := d_id d; d_churchId := d_churchId d; d_batchId := b;
     d_amount := d_amount d; d_personId := d_personId d; d_method := d_method d;
     d_methodDetails := d_methodDetails d; d_donationDate := d_donationDate d |}.

Definition set_fd_id (i : string) (f : FundDonation) : FundDonation :=
  {| fd_id := Some i; fd_churchId := fd_churchId f; fd_donationId := fd_donationId f;
     fd_fundId := fd_fundId f; fd_amount := fd_amount f |}.

Definition set_sf_id (i : string) (f : SubscriptionFund) : SubscriptionFund :=
  {| sf_id := Some i; sf_churchId := sf_churchId f; sf_subscriptionId := sf_subscriptionId f;
     sf_fundId := sf_fundId f; sf_amount := sf_amount f |}.

(** Modelled from the spec: what the load primitives of the repositories
    answer, which are not among the sources; the spec asks for simple
    lookups scoped by tenant id. *)
Definition tenant_gateways (churchId : string) (db : DB) : list Gateway :=
  filter (fun g => g_churchId g =? churchId) (gateways db).

Definition logged_event (churchId id : string) (db : DB) : option EventLog :=
  find (fun e => (el_churchId e =? churchId) && (el_id e =? id)) (eventLogs db).

Definition stored_customer (churchId : string) (id : option string) (db : DB)
  : option Customer :=
  find (fun c => (c_churchId c =? churchId) && same_id (c_id c) id) (customers db).

Definition of_subscription (churchId : string) (sub : option string)
    (rows : list SubscriptionFund) : list SubscriptionFund :=
  filter (fun r => (sf_churchId r =? churchId) && same_id (sf_subscriptionId r) sub) rows.

Definition current_batch (churchId : string) (db : DB) : option DonationBatch :=
  find (fun b => (b_churchId b =? churchId) && b_current b) (donationBatches db).

(** Rows stored one after the other under fresh ids, counting from [n]. *)
Fixpoint with_ids {A} (genId : nat -> string) (setId : string -> A -> A)
    (n : nat) (rows : list A) : list A :=
  match rows with
  | [] => []
  | r :: t => setId (genId n) r :: with_ids genId setId (S n) t
  end.

(** What the controller is wired to: the encryption helper, the Stripe
    helper, [JSON.parse], and the storage layer's id generator and
    failures. *)
Class Collaborators := {
  (** [EncryptionHelper.decrypt]. *)
  decrypt : string -> string;
  (** [StripeHelper.verifySignature secretKey req sig webhookKey], on the
      raw body of the request: the verified event, or a rejection. *)
  verifySignature : string -> string -> string -> string -> Outcome StripeEvent;
  (** [StripeHelper.getCharge secretKey charge]. *)
  getCharge : string -> string -> Outcome Charge;
  (** [StripeHelper.createSubscription secretKey paymentData]. *)
  createSubscription : string -> PaymentDetails -> Outcome StripeSubscription;
  (** [JSON.parse] of metadata.funds, read as the list of funds that
      [/donate/charge] wrote there with [JSON.stringify] (line 88); a text
      that is no JSON is a [SyntaxError]. *)
  JSON_parse : string -> Outcome (list FundData);
  (** The ids the storage layer hands out. *)
  genId : nat -> string;
  (** Which repository calls the storage layer refuses. *)
  failing : RepoCall -> bool
}.

Section Controller.

Context {env : Collaborators}.

Definition repo {A} (c : RepoCall) (m : Task A) : Task A :=
  if failing c then throw PersistenceFailure else m.

(** *** Repositories *)

(** Modelled from the spec: [repositories.gateway.loadAll], the
    credentials stored for the tenant. *)
Definition gateway_loadAll (churchId : string) : Task (list Gateway) :=
  repo GatewayLoadAll
    (fun db => (Returned (tenant_gateways churchId db), db)).

(** Modelled from the spec: [repositories.eventLog.load], lookup by
    (tenant, provider event id). *)
Definition eventLog_load (churchId id : string) : Task (option EventLog) :=
  repo EventLogLoad
    (fun db => (Returned (logged_event churchId id db), db)).

(** Modelled from the spec: [repositories.eventLog.create], append-only. *)
Definition eventLog_create (e : EventLog) : Task unit :=
  repo EventLogCreate
    (fun db => (Returned tt, update_eventLogs (fun l => l ++ [e]) db)).

(** Modelled from the spec: [repositories.customer.load], the customer
    of the tenant with that provider id, if any. *)
Definition customer_load (churchId : string) (id : option string) : Task (option Customer) :=
  repo CustomerLoad
    (fun db => (Returned (stored_customer churchId id db), db)).

(** Modelled from the spec: [repositories.subscriptionFund.loadBySubscriptionId],
    the tenant's rows for that subscription id. *)
Definition subscriptionFund_loadBySubscriptionId (churchId : string) (sub : option string)
  : Task (list SubscriptionFund) :=
  repo SubscriptionFundLoadBySubscriptionId
    (fun db => (Returned (of_subscription churchId sub (subscriptionFunds db)), db)).

(** Modelled from the spec: [repositories.donationBatch.getOrCreateCurrent],
    the tenant's open batch, created when there is none. *)
Definition donationBatch_getOrCreateCurrent (churchId : string) : Task DonationBatch :=
  repo DonationBatchGetOrCreateCurrent
    (fun db =>
       match current_batch churchId db with
       | Some b => (Returned b, db)
       | None =>
           let b := {| b_id := genId (nextId db); b_churchId := churchId; b_current := true |} in
           (Returned b, update_donationBatches (fun l => l ++ [b]) (S (nextId db)) db)
       end).

(** Modelled from the spec: [repositories.donation.save], through
    [save_row]; it returns the stored donation with its id. *)
Definition donation_save (d : Donation) : Task Donation :=
  repo DonationSave
    (fun db =>
       let '(d', rows, n) := save_row genId d_id d_churchId set_d_id d (donations db) (nextId db) in
       (Returned d', update_donations (fun _ => rows) n db)).

(** Modelled from the spec: [repositories.fundDonation.save]. *)
Definition fundDonation_save (f : FundDonation) : Task FundDonation :=
  repo (FundDonationSave (fd_fundId f))
    (fun db =>
       let '(f', rows, n) := save_row genId fd_id fd_churchId set_fd_id f (fundDonations db) (nextId db) in
       (Returned f', update_fundDonations (fun _ => rows) n db)).

(** Modelled from the spec: [repositories.subscription.save]; the row
    comes with the provider's subscription id. *)
Definition subscription_save (s : Subscription) : Task Subscription :=
  repo SubscriptionSave
    (fun db =>
       (Returned s,
        update_subscriptions
          (fun l => filter (fun r => negb ((s_id r =? s_id s)
                                           && (s_churchId r =? s_churchId s))) l
                    ++ [s]) db)).

(** Modelled from the spec: [repositories.subscriptionFund.save]. *)
Definition subscriptionFund_save (f : SubscriptionFund) : Task SubscriptionFund :=
  repo (SubscriptionFundSave (sf_fundId f))
    (fun db =>
       let '(f', rows, n) := save_row genId sf_id sf_churchId set_sf_id f (subscriptionFunds db) (nextId db) in
       (Returned f', update_subscriptionFunds (fun _ => rows) n db)).

(** *** Private helpers of the controller *)

(** Line 129. *)
Definition fundDonationOf (donation : Donation) (fund : FundData) : FundDonation :=
  {| fd_id := None; fd_churchId := d_churchId donation;
     fd_amount := fund_amount fund; fd_donationId := d_id donation;
     fd_fundId := fund_id fund |}.

(** [logDonation], lines 123-133. *)
Definition logDonation (donationData : Donation) (fundData : list FundData)
  : Task (list FundDonation) :=
  batch <- donationBatch_getOrCreateCurrent (d_churchId donationData) ;;
  let donationData := set_d_batchId (Some (b_id batch)) donationData in
  donation <- donation_save donationData ;;
  promise_all (map (fun fund => fundDonation_save (fundDonationOf donation fund)) fundData).

(** [loadPrivateKey], lines 135-138. *)
Definition loadPrivateKey (churchId : string) : Task string :=
  gateways <- gateway_loadAll churchId ;;
  ret (match gateways with
       | [] => EmptyString
       | g :: _ => decrypt (g_privateKey g)
       end).

(** *** POST /donate/log, lines 12-20 *)

Definition log (req : LogRequest) : Task Reply :=
  secretKey <- loadPrivateKey (d_churchId (body_donation req)) ;;
  let donation := body_donation req in
  let fundData := body_fundData req in
  if secretKey =? EmptyString then ret (Json 401)
  else not_awaited (logDonation donation [fundData]) ;;; ret Undefined.

(** *** POST /donate/webhook/:provider, lines 22-79 *)

(** Line 41. *)
Definition subscriptionEvent (eventData : EventData) : bool :=
  Js.truthy (subscription eventData) ||
  match description eventData with
  | Some d => Js.includes "subscription" (Js.toLowerCase d)
  | None => false
  end.

(** Lines 47-51: the payment method details of the event, or of its
    charge when the event names one. *)
Definition paymentMethodDetailsOf (secretKey : string) (eventData : EventData)
  : Outcome (option PaymentMethodDetails) :=
  if Js.truthy (charge eventData)
  then match getCharge secretKey (Js.to_str (charge eventData)) with
       | Returned chargeData => Returned (ch_payment_method_details chargeData)
       | Thrown e => Thrown e
       end
  else Returned (payment_method_details eventData).

(** Line 54. *)
Definition methodTypes : list (string * string) :=
  [("ach_debit", "ACH Debit"); ("card", "Card")].

Fixpoint lookup {A} (k : string) (l : list (string * A)) : option A :=
  match l with
  | [] => None
  | (k', v) :: t => if k' =? k then Some v else lookup k t
  end.

(** Line 56, [methodTypes[paymentType]]: the label of the table, else
    what the table inherits under that name, else [undefined]. *)
Definition methodOf (paymentType : string) : Js.label :=
  match lookup paymentType methodTypes with
  | Some l => Js.Label l
  | None => if Js.inherited paymentType then Js.Inherited paymentType else Js.NoLabel
  end.

(** Lines 55-57.  [paymentMethodDetails[paymentType]] is the sub-object
    stored under the name of the type; under the name ["type"] it is the
    type string itself, and under a name of [Object.prototype] that the
    details do not store it is the inherited value: neither has a
    [last4], and reading it raises nothing.  Only a name that gives
    [undefined] makes [.last4] a TypeError. *)
Definition extractPaymentDetails (paymentMethodDetails : option PaymentMethodDetails)
  : Outcome (Js.label * option string) :=
  match paymentMethodDetails with
  | None => Thrown TypeError
  | Some pmd =>
      let paymentType := pmd_type pmd in
      let method := methodOf paymentType in
      if paymentType =? "type" then Returned (method, None)
      else match lookup paymentType (pmd_props pmd) with
           | Some sub => Returned (method, last4 sub)
           | None =>
               if Js.inherited paymentType then Returned (method, None)
               else Thrown TypeError
           end
  end.

(** Lines 64-65. *)
Definition eventMessage (eventData : EventData) : Outcome (option string) :=
  if Js.truthy (billing_reason eventData)
  then Returned (Some (Js.to_str (billing_reason eventData) ++ " "
                       ++ Js.to_str (status eventData))%string)
  else match outcome eventData with
       | None => Thrown TypeError
       | Some o =>
           if Js.truthy (failure_message eventData)
           then Returned (Some (Js.to_str (failure_message eventData) ++ " "
                                ++ Js.to_str (seller_message o))%string)
           else Returned (seller_message o)
       end.

(** Line 72: [(amount || amount_paid) / 100]. *)
Definition donationAmount (eventData : EventData) : Js.number :=
  match (if Js.truthy_num (amount eventData) then amount eventData
         else amount_paid eventData) with
  | Some q => Js.Num (q / 100)
  | None => Js.NaN
  end.

(** Line 75. *)
Definition fundsOf (churchId : string) (eventData : EventData) : Task (list FundData) :=
  match metadata eventData with
  | None => throw TypeError
  | Some md =>
      if Js.truthy (funds md) then lift (JSON_parse (Js.to_str (funds md)))
      else rows <- subscriptionFund_loadBySubscriptionId churchId (subscription eventData) ;;
           ret (map as_fund rows)
  end.

Definition isDonationEvent (type : string) : bool :=
  (type =? "charge.succeeded") || (type =? "invoice.paid").

(** Lines 59 and 66. *)
Definition eventLogOf (churchId : string) (stripeEvent : StripeEvent)
    (message : option string) : EventLog :=
  let eventData := ev_data stripeEvent in
  {| el_id := ev_id stripeEvent; el_churchId := churchId;
     el_customerId := customer eventData; el_provider := "Stripe";
     el_eventType := ev_type stripeEvent; el_status := status eventData;
     el_message := message; el_created := (created eventData * 1000)%Z |}.

(** Lines 59, 72 and 74. *)
Definition donationOf (churchId : string) (eventData : EventData)
    (personId : option string) (method : Js.label) (methodDetails : option string)
  : Donation :=
  {| d_id := None; d_churchId := churchId; d_batchId := None;
     d_amount := donationAmount eventData; d_personId := personId;
     d_method := method; d_methodDetails := methodDetails;
     d_donationDate := Some (created eventData * 1000)%Z |}.

(** Lines 61-68, the block "Log event". *)
Definition init_logEvent (churchId : string) (stripeEvent : StripeEvent) : Task unit :=
  existingEvent <- eventLog_load churchId (ev_id stripeEvent) ;;
  match existingEvent with
  | Some _ => ret tt
  | None =>
      message <- lift (eventMessage (ev_data stripeEvent)) ;;
      eventLog_create (eventLogOf churchId stripeEvent message)
  end.

(** Lines 70-77, the block "Log donation". *)
Definition init_logDonation (churchId : string) (stripeEvent : StripeEvent)
    (method : Js.label) (methodDetails : option string) : Task unit :=
  let eventData := ev_data stripeEvent in
  if isDonationEvent (ev_type stripeEvent)
  then
    customerData <- customer_load churchId (customer eventData) ;;
    personId <- match customerData with
                | Some c => ret (c_personId c)
                | None => throw TypeError
                end ;;
    let donation := donationOf churchId eventData personId method methodDetails in
    funds <- fundsOf churchId eventData ;;
    logDonation donation funds ;;;
    ret tt
  else ret tt.

(** Lines 38-77: the closure once the event is verified. *)
Definition init_event (churchId secretKey : string) (stripeEvent : StripeEvent) : Task Reply :=
  let eventData := ev_data stripeEvent in
  if (ev_type stripeEvent =? "charge.succeeded") && subscriptionEvent eventData
  then ret (Json 200)
  else
    paymentMethodDetails <- lift (paymentMethodDetailsOf secretKey eventData) ;;
    details <- lift (extractPaymentDetails paymentMethodDetails) ;;
    let method := fst details in
    let methodDetails := snd details in
    init_logEvent churchId stripeEvent ;;;
    init_logDonation churchId stripeEvent method methodDetails ;;;
    ret Undefined.

(** Lines 25-36, then the rest of the closure. *)
Definition init (req : WebhookRequest) : Task Reply :=
  churchId <- toString (query_churchId req) ;;
  gateways <- gateway_loadAll churchId ;;
  match gateways with
  | [] => ret (Json 401)
  | gateway :: _ =>
      let secretKey := decrypt (g_privateKey gateway) in
      if secretKey =? EmptyString then ret (Json 401)
      else
        sig <- toString (header_stripe_signature req) ;;
        let webhookKey := decrypt (g_webhookKey gateway) in
        stripeEvent <- lift (verifySignature secretKey (rawBody req) sig webhookKey) ;;
        init_event churchId secretKey stripeEvent
  end.

(** *** POST /donate/subscribe, lines 99-121 *)

(** Line 116. *)
Definition subscriptionFundOf (churchId subscriptionId : string) (fund : FundData)
  : SubscriptionFund :=
  {| sf_id := None; sf_churchId := churchId; sf_subscriptionId := subscriptionId;
     sf_fundId := fund_id fund; sf_amount := fund_amount fund |}.

(** Lines 106 and 108. *)
Definition subscribePaymentData (body : SubscribeBody) (productId : option string)
  : PaymentDetails :=
  {| payment_method_id := sb_id body; pay_amount := sb_amount body;
     currency := "usd"; pay_customer := sb_customerId body;
     pay_type := sb_type body;
     billing_cycle_anchor := sb_billing_cycle_anchor body;
     proration_behavior := sb_proration_behavior body;
     interval := sb_interval body; productId := productId |}.

Definition subscribe (au_churchId : string) (body : SubscribeBody) : Task Reply :=
  secretKey <- loadPrivateKey au_churchId ;;
  if secretKey =? EmptyString then ret (Json 401)
  else
    gateways <- gateway_loadAll au_churchId ;;
    productId <- match gateways with
                 | g :: _ => ret (g_productId g)
                 | [] => throw TypeError
                 end ;;
    let paymentData := subscribePaymentData body productId in
    stripeSubscription <- lift (createSubscription secretKey paymentData) ;;
    person <- match sb_person body with
              | Some p => ret p
              | None => throw TypeError
              end ;;
    let subscription :=
      {| s_id := sub_id stripeSubscription; s_churchId := au_churchId;
         s_personId := p_id person; s_customerId := sb_customerId body |} in
    subscription_save subscription ;;;
    funds <- match sb_funds body with
             | Some l => ret l
             | None => throw TypeError
             end ;;
    rows <- promise_all
              (map (fun fund =>
                      subscriptionFund_save
                        (subscriptionFundOf au_churchId (s_id subscription) fund))
                   funds) ;;
    ret (Rows rows).

End Controller.

(** ** A concrete tenant, provider and set of events *)

Module Sample.

(** Ciphertexts are the plaintext behind ["enc:"]; anything else
    decrypts to the empty string. *)
Definition decrypt (s : string) : string :=
  if prefix "enc:" s then substring 4 (String.length s - 4) s else EmptyString.

Definition quote : string := String (ascii_of_nat 34) EmptyString.

(** The text [[{"id":"fund_a","amount":30},{"id":"fund_b","amount":20}]]. *)
Definition funds_json : string :=
  ("[{" ++ quote ++ "id" ++ quote ++ ":" ++ quote ++ "fund_a" ++ quote ++ ","
        ++ quote ++ "amount" ++ quote ++ ":30},{"
        ++ quote ++ "id" ++ quote ++ ":" ++ quote ++ "fund_b" ++ quote ++ ","
        ++ quote ++ "amount" ++ quote ++ ":20}]")%string.

Definition two_funds : list FundData :=
  [ {| fund_id := Some "fund_a"; fund_amount := 30 |};
    {| fund_id := Some "fund_b"; fund_amount := 20 |} ].

Definition JSON_parse (s : string) : Outcome (list FundData) :=
  if s =? funds_json then Returned two_funds else Thrown SyntaxError.

Definition card : PaymentMethodDetails :=
  {| pmd_type := "card"; pmd_props := [("card", {| last4 := Some "4242" |})] |}.

Definition ach : PaymentMethodDetails :=
  {| pmd_type := "ach_debit"; pmd_props := [("ach_debit", {| last4 := Some "6789" |})] |}.

Definition sepa : PaymentMethodDetails :=
  {| pmd_type := "sepa_debit"; pmd_props := [("sepa_debit", {| last4 := Some "3000" |})] |}.

Definition charge_data : EventData :=
  {| subscription := None; description := Some "Gift to the building fund";
     created := 1600000000; customer := Some "cus_1"; status := Some "succeeded";
     amount := Some 5000; metadata := Some {| funds := Some funds_json |};
     failure_message := None;
     outcome := Some {| seller_message := Some "Payment complete." |};
     payment_method_details := Some card; amount_paid := None;
     billing_reason := None; charge := None |}.

Definition charge_event : StripeEvent :=
  {| ev_id := "evt_charge"; ev_type := "charge.succeeded"; ev_data := charge_data |}.

Definition subscription_charge_data : EventData :=
  {| subscription := None; description := Some "Subscription creation";
     created := 1600000100; customer := Some "cus_1"; status := Some "succeeded";
     amount := Some 2500; metadata := Some {| funds := None |};
     failure_message := None;
     outcome := Some {| seller_message := Some "Payment complete." |};
     payment_method_details := Some card; amount_paid := None;
     billing_reason := None; charge := None |}.

Definition subscription_charge_event : StripeEvent :=
  {| ev_id := "evt_subcharge"; ev_type := "charge.succeeded";
     ev_data := subscription_charge_data |}.

Definition invoice_data : EventData :=
  {| subscription := Some "sub_1"; description := None;
     created := 1600000200; customer := Some "cus_1"; status := Some "paid";
     amount := None; metadata := Some {| funds := None |};
     failure_message := None; outcome := None;
     payment_method_details := None; amount_paid := Some 2500;
     billing_reason := Some "subscription_cycle"; charge := Some "ch_1" |}.

Definition invoice_event : StripeEvent :=
  {| ev_id := "evt_invoice"; ev_type := "invoice.paid"; ev_data := invoice_data |}.

Definition failed_data : EventData :=
  {| subscription := None; description := Some "Gift to the building fund";
     created := 1600000300; customer := Some "cus_1"; status := Some "failed";
     amount := Some 5000; metadata := Some {| funds := Some funds_json |};
     failure_message := Some "Your card was declined.";
     outcome := Some {| seller_message := Some "The bank did not return any further details." |};
     payment_method_details := Some card; amount_paid := None;
     billing_reason := None; charge := None |}.

Definition failed_event : StripeEvent :=
  {| ev_id := "evt_failed"; ev_type := "charge.failed"; ev_data := failed_data |}.

Definition events : list (string * StripeEvent) :=
  [ ("charge", charge_event); ("subscription charge", subscription_charge_event);
    ("invoice", invoice_event); ("failed", failed_event) ].

(** The provider accepts one signature for the tenant's keys and reads
    the event off the body. *)
Definition verifySignature (secretKey body sig webhookKey : string) : Outcome StripeEvent :=
  if (secretKey =? "sk_live") && (sig =? "t=1,v1=good") && (webhookKey =? "whsec")
  then match find (fun p => fst p =? body) events with
       | Some p => Returned (snd p)
       | None => Thrown InvalidSignature
       end
  else Thrown InvalidSignature.

Definition getCharge (secretKey id : string) : Outcome Charge :=
  if id =? "ch_1" then Returned {| ch_payment_method_details := Some ach |}
  else Thrown ProviderError.

Definition createSubscription (secretKey : string) (p : PaymentDetails)
  : Outcome StripeSubscription :=
  Returned {| sub_id := "sub_1" |}.

Definition genId (n : nat) : string :=
  String (ascii_of_nat (97 + n)) EmptyString.

Definition healthy (c : RepoCall) : bool := false.

Definition donation_table_down (c : RepoCall) : bool :=
  match c with
  | DonationSave => true
  | _ => false
  end.

Definition db0 : DB :=
  {| gateways := [ {| g_churchId := "church1"; g_privateKey := "enc:sk_live";
                      g_webhookKey := "enc:whsec"; g_productId := Some "prod_1" |} ];
     eventLogs := [];
     customers := [ {| c_id := "cus_1"; c_churchId := "church1";
                       c_personId := Some "person_1" |} ];
     donationBatches := []; donations := []; fundDonations := [];
     subscriptions := []; subscriptionFunds := []; nextId := 0 |}.

Definition webhook (body sig : string) : WebhookRequest :=
  {| query_churchId := Some "church1"; header_stripe_signature := Some sig;
     rawBody := body |}.

Definition env (failing : RepoCall -> bool) : Collaborators :=
  Build_Collaborators decrypt verifySignature getCharge createSubscription
                      JSON_parse genId failing.

Definition offline_gift : Donation :=
  {| d_id := None; d_churchId := "church1"; d_batchId := None;
     d_amount := Js.Num 40; d_personId := Some "person_1";
     d_method := Js.Label "Cash"; d_methodDetails := None;
     d_donationDate := Some 1600000400000%Z |}.

(** A request to [/donate/log] as anybody can send it: no header, no key. *)
Definition log_request : LogRequest :=
  {| log_headers := []; body_donation := offline_gift;
     body_fundData := {| fund_id := Some "fund_a"; fund_amount := 40 |} |}.

Definition subscribe_body : SubscribeBody :=
  {| sb_id := Some "pm_1"; sb_amount := Some 25; sb_customerId := Some "cus_1";
     sb_type := Some "card"; sb_billing_cycle_anchor := None;
     sb_proration_behavior := Some "none"; sb_interval := Some "month";
     sb_funds := Some [ {| fund_id := Some "fund_a"; fund_amount := 15 |};
                        {| fund_id := Some "fund_b"; fund_amount := 10 |} ];
     sb_person := Some {| p_id := Some "person_1" |} |}.

(** The collaborators with a storage layer that accepts every call, and
    with one that refuses to save donations. *)
Definition live : Collaborators := env healthy.

Definition degraded : Collaborators := env donation_table_down.

Definition good : string := "t=1,v1=good".

(** A store in which no tenant has credentials. *)
Definition unconfigured : DB :=
  {| gateways := []; eventLogs := []; customers := []; donationBatches := [];
     donations := []; fundDonations := []; subscriptions := [];
     subscriptionFunds := []; nextId := 0 |}.

(** The store after the first delivery of the one-time charge. *)
Definition after_charge : DB :=
  snd (@init live (webhook "charge" good) db0).


End Sample.

(** * The rest of the controllers *)

(** ** POST /donate/charge, lines 81-97 *)

(** [v === s] for a field that may be undefined. *)
Definition strict_eq (v : option string) (s : string) : bool :=
  match v with
  | Some x => x =? s
  | None => false
  end.

Record ChargeBody := {
  cb_id : option string;
  cb_amount : option Q;
  cb_customerId : option string;
  cb_type : option string;
  cb_funds : option (list FundData)
}.

(** The fields of [PaymentDetails] that [charge] fills in. *)
Record ChargePaymentDetails := {
  cp_amount : option Q;
  cp_currency : string;
  cp_customer : option string;
  cp_metadata_funds : option string;
  cp_payment_method : option string;
  cp_confirm : option bool;
  cp_off_session : option bool;
  cp_source : option string
}.

(** What the provider answers to a charge. *)
Record DonateResult := { dr_raw : string }.

(** The value the closure of [charge] resolves with. *)
Inductive ChargeReply : Type :=
| ChargeJson (status : nat)
| ChargeResult (r : DonateResult).

Class ChargeCollaborators := {
  (** [JSON.stringify] of the fund list of the request. *)
  JSON_stringify : list FundData -> string;
  (** [StripeHelper.donate secretKey paymentData]. *)
  donate : string -> ChargePaymentDetails -> Outcome DonateResult
}.

Module Donate.

Section Charge.

Context {env : Collaborators} {provider : ChargeCollaborators}.

(** Lines 86-94.  [JSON.stringify(undefined)] is [undefined]. *)
Definition chargePaymentData (donationData : ChargeBody) : ChargePaymentDetails :=
  let fundDonations := cb_funds donationData in
  let paymentData :=
    {| cp_amount := cb_amount donationData; cp_currency := "usd";
       cp_customer := cb_customerId donationData;
       cp_metadata_funds := option_map JSON_stringify fundDonations;
       cp_payment_method := None; cp_confirm := None; cp_off_session := None;
       cp_source := None |} in
  let paymentData :=
    if strict_eq (cb_type donationData) "card"
    then {| cp_amount := cp_amount paymentData; cp_currency := cp_currency paymentData;
            cp_customer := cp_customer paymentData;
            cp_metadata_funds := cp_metadata_funds paymentData;
            cp_payment_method := cb_id donationData; cp_confirm := Some true;
            cp_off_session := Some true; cp_source := cp_source paymentData |}
    else paymentData in
  if strict_eq (cb_type donationData) "bank"
  then {| cp_amount := cp_amount paymentData; cp_currency := cp_currency paymentData;
          cp_customer := cp_customer paymentData;
          cp_metadata_funds := cp_metadata_funds paymentData;
          cp_payment_method := cp_payment_method paymentData;
          cp_confirm := cp_confirm paymentData;
          cp_off_session := cp_off_session paymentData;
          cp_source := cb_id donationData |}
  else paymentData.

Definition charge (au_churchId : string) (body : ChargeBody) : Task ChargeReply :=
  secretKey <- loadPrivateKey au_churchId ;;
  if secretKey =? EmptyString then ret (ChargeJson 401)
  else
    let paymentData := chargePaymentData body in
    r <- lift (donate secretKey paymentData) ;;
    ret (ChargeResult r).

End Charge.

End Donate.

(** ** src/controllers/DonationController.ts *)

(** [Permissions.donations], as the controller names them. *)
Inductive Permission : Type :=
| DonationsViewSummary
| DonationsView
| DonationsEdit.

Record AuthenticatedUser := {
  au_churchId : string;
  au_grants : list Permission
}.

Record GetAllQuery := {
  q_batchId : option string;
  q_personId : option string
}.

(** The value a closure of the donation controller resolves with. *)
Inductive DonationsReply : Type :=
| DJson (status : nat)
| DModel (m : option Donation)
| DModels (l : list Donation)
| DUndefined.

(** The calls of the donation controller that are not among the sources:
    the user's [checkAccess], the loads and the delete of the donation
    repository, and its conversions to models. *)
Class DonationsBackend := {
  checkAccess : AuthenticatedUser -> Permission -> bool;
  donation_load : string -> string -> DB -> Outcome (option Donation);
  donation_loadByBatchId : string -> string -> DB -> Outcome (list Donation);
  donation_loadByPersonId : string -> string -> DB -> Outcome (list Donation);
  donation_loadAll : string -> DB -> Outcome (list Donation);
  donation_delete : string -> string -> Task unit;
  convertToModel : string -> option Donation -> option Donation;
  convertAllToModel : string -> list Donation -> list Donation
}.

Definition set_d_churchId (c : string) (d : Donation) : Donation :=
  {| d_id := d_id d; d_churchId := c; d_batchId := d_batchId d;
     d_amount := d_amount d; d_personId := d_personId d; d_method := d_method d;
     d_methodDetails := d_methodDetails d; d_donationDate := d_donationDate d |}.

Module DonationController.

Section Routes.

Context {env : Collaborators} {backend : DonationsBackend}.

(** A load of the repository: it answers from the store and writes nothing. *)
Definition reading {A} (f : DB -> Outcome A) : Task A := fun db => (f db, db).

(** GET /donations/:id, lines 24-34. *)
Definition get (au : AuthenticatedUser) (id : string) : Task DonationsReply :=
  if negb (checkAccess au DonationsView) then ret (DJson 401)
  else
    data <- reading (donation_load (au_churchId au) id) ;;
    let result := convertToModel (au_churchId au) data in
    ret (DModel result).

(** GET /donations, lines 36-48. *)
Definition getAll (au : AuthenticatedUser) (query : GetAllQuery) : Task DonationsReply :=
  if negb (checkAccess au DonationsView) then ret (DJson 401)
  else
    result <- match q_batchId query with
              | Some batchId => reading (donation_loadByBatchId (au_churchId au) batchId)
              | None =>
                  match q_personId query with
                  | Some personId =>
                      reading (donation_loadByPersonId (au_churchId au) personId)
                  | None => reading (donation_loadAll (au_churchId au))
                  end
              end ;;
    ret (DModels (convertAllToModel (au_churchId au) result)).

(** POST /donations, lines 51-62. *)
Definition save (au : AuthenticatedUser) (body : list Donation) : Task DonationsReply :=
  if negb (checkAccess au DonationsEdit) then ret (DJson 401)
  else
    result <- promise_all
                (map (fun donation =>
                        donation_save (set_d_churchId (au_churchId au) donation))
                     body) ;;
    ret (DModels (convertAllToModel (au_churchId au) result)).

(** DELETE /donations/:id, lines 64-70. *)
Definition delete (au : AuthenticatedUser) (id : string) : Task DonationsReply :=
  if negb (checkAccess au DonationsEdit) then ret (DJson 401)
  else donation_delete (au_churchId au) id ;;; ret DUndefined.

End Routes.

End DonationController.

(** ** Predicates on stores *)

(** [new] is [old] with rows of the tenant [c] added at the end. *)
Definition appended {A} (churchOf : A -> string) (c : string) (old new : list A) : Prop :=
  exists added, new = old ++ added /\ Forall (fun r => churchOf r = c) added.

(** From [db] to [db'] nothing was removed or changed, the credentials,
    customers and subscriptions are the same, and every row added to the
    log, the batches, the donations and the fund allocations belongs to
    the tenant [c]. *)
Definition confined (c : string) (db db' : DB) : Prop :=
  gateways db' = gateways db /\
  customers db' = customers db /\
  subscriptions db' = subscriptions db /\
  subscriptionFunds db' = subscriptionFunds db /\
  appended el_churchId c (eventLogs db) (eventLogs db') /\
  appended b_churchId c (donationBatches db) (donationBatches db') /\
  appended d_churchId c (donations db) (donations db') /\
  appended fd_churchId c (fundDonations db) (fundDonations db').

(** No two entries of the event log have the same tenant and event id. *)
Definition unique_events (db : DB) : Prop :=
  NoDup (map (fun e => (el_churchId e, el_id e)) (eventLogs db)).

(** A fund allocation whose save the storage layer accepts. *)
Definition accepted {env : Collaborators} (fund : FundData) : bool :=
  negb (failing (FundDonationSave (fund_id fund))).

(** ** A concrete office for the other routes *)

Module Parish.

Definition JSON_stringify (l : list FundData) : string :=
  match l with
  | [] => "[]"
  | _ => Sample.funds_json
  end.

Definition donate (secretKey : string) (p : ChargePaymentDetails) : Outcome DonateResult :=
  if secretKey =? "sk_live" then Returned {| dr_raw := "pi_1" |}
  else Thrown ProviderError.

Definition provider : ChargeCollaborators :=
  Build_ChargeCollaborators JSON_stringify donate.

Definition permission_eqb (p q : Permission) : bool :=
  match p, q with
  | DonationsViewSummary, DonationsViewSummary => true
  | DonationsView, DonationsView => true
  | DonationsEdit, DonationsEdit => true
  | _, _ => false
  end.

Definition checkAccess (au : AuthenticatedUser) (p : Permission) : bool :=
  existsb (permission_eqb p) (au_grants au).

Definition of_tenant (c : string) (d : Donation) : bool := d_churchId d =? c.

Definition donation_load (c id : string) (db : DB) : Outcome (option Donation) :=
  Returned (find (fun d => of_tenant c d && strict_eq (d_id d) id) (donations db)).

Definition donation_loadByBatchId (c batchId : string) (db : DB) : Outcome (list Donation) :=
  Returned (filter (fun d => of_tenant c d && strict_eq (d_batchId d) batchId)
                   (donations db)).

Definition donation_loadByPersonId (c personId : string) (db : DB)
  : Outcome (list Donation) :=
  Returned (filter (fun d => of_tenant c d && strict_eq (d_personId d) personId)
                   (donations db)).

Definition donation_loadAll (c : string) (db : DB) : Outcome (list Donation) :=
  Returned (filter (of_tenant c) (donations db)).

Definition donation_delete (c id : string) : Task unit :=
  fun db =>
    (Returned tt,
     update_donations
       (filter (fun d => negb (of_tenant c d && strict_eq (d_id d) id)))
       (nextId db) db).

Definition backend : DonationsBackend :=
  Build_DonationsBackend checkAccess donation_load donation_loadByBatchId
                         donation_loadByPersonId donation_loadAll donation_delete
                         (fun _ d => d) (fun _ l => l).

Definition treasurer : AuthenticatedUser :=
  {| au_churchId := "church1"; au_grants := [DonationsView; DonationsEdit] |}.

Definition usher : AuthenticatedUser :=
  {| au_churchId := "church1"; au_grants := [DonationsViewSummary] |}.

Definition card_charge : ChargeBody :=
  {| cb_id := Some "pm_1"; cb_amount := Some 5000; cb_customerId := Some "cus_1";
     cb_type := Some "card"; cb_funds := Some Sample.two_funds |}.

Definition bank_charge : ChargeBody :=
  {| cb_id := Some "ba_1"; cb_amount := Some 5000; cb_customerId := Some "cus_1";
     cb_type := Some "bank"; cb_funds := Some Sample.two_funds |}.

Definition cheque_charge : ChargeBody :=
  {| cb_id := Some "chq_1"; cb_amount := Some 5000; cb_customerId := Some "cus_1";
     cb_type := Some "cheque"; cb_funds := Some Sample.two_funds |}.

(** Two donations sent to POST /donations, one claiming another tenant. *)
Definition posted : list Donation :=
  [ Sample.offline_gift;
    {| d_id := None; d_churchId := "church2"; d_batchId := Some "batch_9";
       d_amount := Js.Num 10; d_personId := Some "person_2";
       d_method := Js.Label "Check"; d_methodDetails := Some "1001";
       d_donationDate := Some 1600000500000%Z |} ].

(** A store where the fund allocation save of "fund_b" is refused. *)
Definition fund_b_down (c : RepoCall) : bool :=
  match c with
  | FundDonationSave (Some f) => f =? "fund_b"
  | _ => false
  end.

Definition patchy : Collaborators := Sample.env fund_b_down.

(** A subscribe request that carries no fund list. *)
Definition fundless_body : SubscribeBody :=
  {| sb_id := Some "pm_1"; sb_amount := Some 25; sb_customerId := Some "cus_1";
     sb_type := Some "card"; sb_billing_cycle_anchor := None;
     sb_proration_behavior := Some "none"; sb_interval := Some "month";
     sb_funds := None; sb_person := Some {| p_id := Some "person_1" |} |}.

(** A store where nothing can be saved for a subscription. *)
Definition subscriptions_down (c : RepoCall) : bool :=
  match c with
  | SubscriptionSave => true
  | _ => false
  end.

Definition unsubscribable : Collaborators := Sample.env subscriptions_down.

(** An event like the sample charge, of a customer the store does not know. *)
Definition stranger_event : StripeEvent :=
  {| ev_id := "evt_stranger"; ev_type := "charge.succeeded";
     ev_data :=
       {| subscription := None; description := None;
          created := 1600000600; customer := Some "cus_404"; status := Some "succeeded";
          amount := Some 700; metadata := Some {| funds := Some Sample.funds_json |};
          failure_message := None;
          outcome := Some {| seller_message := Some "Payment complete." |};
          payment_method_details := Some Sample.card; amount_paid := None;
          billing_reason := None; charge := None |} |}.

(** An invoice whose charge the provider does not find. *)
Definition orphan_invoice : StripeEvent :=
  {| ev_id := "evt_orphan"; ev_type := "invoice.paid";
     ev_data :=
       {| subscription := Some "sub_1"; description := None;
          created := 1600000700; customer := Some "cus_1"; status := Some "paid";
          amount := None; metadata := Some {| funds := None |};
          failure_message := None; outcome := None;
          payment_method_details := None; amount_paid := Some 2500;
          billing_reason := Some "subscription_cycle"; charge := Some "ch_404" |} |}.

(** The provider of the sample, knowing these two events as well. *)
Definition verifySignature (secretKey body sig webhookKey : string) : Outcome StripeEvent :=
  if body =? "stranger" then
    if sig =? Sample.good then Returned stranger_event else Thrown InvalidSignature
  else if body =? "orphan" then
    if sig =? Sample.good then Returned orphan_invoice else Thrown InvalidSignature
  else Sample.verifySignature secretKey body sig webhookKey.

Definition live : Collaborators :=
  Build_Collaborators Sample.decrypt verifySignature Sample.getCharge
                      Sample.createSubscription Sample.JSON_parse Sample.genId
                      Sample.healthy.

End Parish.

(** * Properties *)

Section Properties.

Context {env : Collaborators}.

(** The request passes lines 25-36: the tenant has credentials, the
    secret key is not empty and the provider vouches for the body. *)
Definition verified (req : WebhookRequest) (db : DB)
    (churchId secretKey : string) (ev : StripeEvent) : Prop :=
  query_churchId req = Some churchId /\
  failing GatewayLoadAll = false /\
  exists gateway rest sig,
    tenant_gateways churchId db = gateway :: rest /\
    decrypt (g_privateKey gateway) = secretKey /\
    secretKey <> EmptyString /\
    header_stripe_signature req = Some sig /\
    verifySignature secretKey (rawBody req) sig (decrypt (g_webhookKey gateway))
      = Returned ev.

(** The event log holds an entry of the tenant for the event. *)
Definition event_logged (churchId : string) (ev : StripeEvent) (db : DB) : Prop :=
  exists e, In e (eventLogs db) /\ el_churchId e = churchId /\ el_id e = ev_id ev.

(** The webhook answered 401 and wrote nothing. *)
Definition rejected_unauthorized (req : WebhookRequest) (db : DB) : Prop :=
  init req db = (Returned (Json 401), db).

(** The run of a task wrote no Donation and no FundDonation row. *)
Definition no_donation_written {A} (m : Task A) (db : DB) : Prop :=
  donations (snd (m db)) = donations db /\
  fundDonations (snd (m db)) = fundDonations db.

(** The payment details raise an error for the type they carry. *)
Definition fails_as_unsupported (pmd : PaymentMethodDetails) : Prop :=
  exists e, extractPaymentDetails (Some pmd) = Thrown e.

(** The secret key [loadPrivateKey] finds for a tenant. *)
Definition stored_key (churchId : string) (db : DB) : string :=
  match tenant_gateways churchId db with
  | [] => EmptyString
  | g :: _ => decrypt (g_privateKey g)
  end.

(** [/donate/log] answered 401 and wrote nothing. *)
Definition log_refused (req : LogRequest) (db : DB) : Prop :=
  log req db = (Returned (Json 401), db).

(** The same request under other headers. *)
Definition with_headers (headers : list (string * string)) (req : LogRequest)
  : LogRequest :=
  {| log_headers := headers; body_donation := body_donation req;
     body_fundData := body_fundData req |}.

(** The webhook treated the request as an ignored event: no Donation, no
    FundDonation and no EventLogEntry came of it. *)
Definition event_ignored (req : WebhookRequest) (db : DB) : Prop :=
  no_donation_written (init req) db /\
  eventLogs (snd (init req db)) = eventLogs db.

(** A task never touches the table [proj]. *)
Definition keeps {T A} (proj : DB -> T) (m : Task A) : Prop :=
  forall db, proj (snd (m db)) = proj db.

(** ** Sequencing *)

Lemma bind_returned {A B} (m : Task A) (k : A -> Task B) db a db' :
  m db = (Returned a, db') -> bind m k db = k a db'.
Proof. intros H. unfold bind. now rewrite H. Qed.

Lemma bind_thrown {A B} (m : Task A) (k : A -> Task B) db e db' :
  m db = (Thrown e, db') -> bind m k db = (Thrown e, db').
Proof. intros H. unfold bind. now rewrite H. Qed.

Lemma repo_ok {A} c (m : Task A) db :
  failing c = false -> repo c m db = m db.
Proof. intros H. unfold repo. now rewrite H. Qed.

Lemma keeps_ret {T A} (proj : DB -> T) (a : A) : keeps proj (ret a).
Proof. intros db. reflexivity. Qed.

Lemma keeps_throw {T A} (proj : DB -> T) e : keeps proj (@throw A e).
Proof. intros db. reflexivity. Qed.

Lemma keeps_lift {T A} (proj : DB -> T) (o : Outcome A) : keeps proj (lift o).
Proof. intros db. reflexivity. Qed.

Lemma keeps_bind {T A B} (proj : DB -> T) (m : Task A) (k : A -> Task B) :
  keeps proj m -> (forall a, keeps proj (k a)) -> keeps proj (bind m k).
Proof.
  intros Hm Hk db. unfold bind.
  specialize (Hm db). destruct (m db) as [[a|e] db1]; simpl in *.
  - now rewrite Hk.
  - exact Hm.
Qed.

Lemma keeps_repo {T A} (proj : DB -> T) c (m : Task A) :
  keeps proj m -> keeps proj (repo c m).
Proof.
  intros Hm db. unfold repo. destruct (failing c); [reflexivity | apply Hm].
Qed.

Lemma keeps_promise_all {T A} (proj : DB -> T) (ps : list (Task A)) :
  Forall (keeps proj) ps -> keeps proj (promise_all ps).
Proof.
  induction 1 as [|p ps Hp _ IH]; intros db; simpl; [reflexivity|].
  specialize (Hp db). destruct (p db) as [o db1].
  specialize (IH db1). destruct (promise_all ps db1) as [os db2].
  simpl in *. congruence.
Qed.

(** ** The gate of the webhook *)

Lemma init_verified req db churchId secretKey ev :
  verified req db churchId secretKey ev ->
  init req db = init_event churchId secretKey ev db.
Proof.
  intros (Hq & Hf & g & rest & sig & Hg & Hk & Hne & Hs & Hv).
  unfold init. rewrite Hq. simpl.
  erewrite bind_returned by reflexivity.
  erewrite bind_returned
    by (unfold gateway_loadAll; rewrite repo_ok by exact Hf; reflexivity).
  rewrite Hg, Hk.
  destruct (secretKey =? EmptyString) eqn:E; [apply String.eqb_eq in E; contradiction|].
  rewrite Hs. simpl.
  erewrite bind_returned by reflexivity.
  erewrite bind_returned by (unfold lift; rewrite Hv; reflexivity).
  reflexivity.
Qed.

(** ** Rejected requests *)

(** C5, amended.  A webhook request for a tenant without gateway
    credentials, or whose secret key decrypts to the empty string, is
    answered 401 and writes nothing.  When the provider rejects the
    signature the closure does not answer 401: it fails with the
    verifier's error, and it writes nothing either. *)
Theorem webhook_rejections_write_nothing req db churchId :
  query_churchId req = Some churchId ->
  failing GatewayLoadAll = false ->
  (tenant_gateways churchId db = [] -> rejected_unauthorized req db) /\
  (forall g rest,
      tenant_gateways churchId db = g :: rest ->
      decrypt (g_privateKey g) = EmptyString ->
      rejected_unauthorized req db) /\
  (forall g rest sig e,
      tenant_gateways churchId db = g :: rest ->
      decrypt (g_privateKey g) <> EmptyString ->
      header_stripe_signature req = Some sig ->
      verifySignature (decrypt (g_privateKey g)) (rawBody req) sig
                      (decrypt (g_webhookKey g)) = Thrown e ->
      init req db = (Thrown e, db)).
Proof.
  intros Hq Hf.
  assert (Hload : forall k : list Gateway -> Task Reply,
             init req db = bind (gateway_loadAll churchId) k db ->
             init req db = k (tenant_gateways churchId db) db).
  { intros k ->. apply bind_returned.
    unfold gateway_loadAll. now rewrite repo_ok. }
  unfold rejected_unauthorized.
  repeat split.
  - intros Hg. rewrite (Hload _ ltac:(unfold init; rewrite Hq; reflexivity)).
    now rewrite Hg.
  - intros g rest Hg Hk.
    rewrite (Hload _ ltac:(unfold init; rewrite Hq; reflexivity)).
    rewrite Hg, Hk. reflexivity.
  - intros g rest sig e Hg Hk Hs Hv.
    rewrite (Hload _ ltac:(unfold init; rewrite Hq; reflexivity)).
    rewrite Hg.
    destruct (decrypt (g_privateKey g) =? EmptyString) eqn:E;
      [apply String.eqb_eq in E; contradiction|].
    rewrite Hs. simpl. erewrite bind_returned by reflexivity.
    apply bind_thrown. unfold lift. now rewrite Hv.
Qed.

(** ** Classification *)

(** C2, amended.  A verified charge.succeeded event in a subscription
    context (a subscription reference on the event, or "subscription"
    contained in its lower-cased description) is answered 200 and
    nothing is written: no Donation and no EventLogEntry. *)
Theorem subscription_charge_is_ignored req db churchId secretKey ev :
  verified req db churchId secretKey ev ->
  ev_type ev = "charge.succeeded" ->
  (Js.truthy (subscription (ev_data ev)) = true \/
   exists s, description (ev_data ev) = Some s /\
             Js.includes "subscription" (Js.toLowerCase s) = true) ->
  init req db = (Returned (Json 200), db).
Proof.
  intros Hv Ht Hsub. rewrite (init_verified _ _ _ _ _ Hv).
  unfold init_event. rewrite Ht.
  assert (subscriptionEvent (ev_data ev) = true) as ->.
  { unfold subscriptionEvent. destruct Hsub as [H | (s & Hd & Hi)].
    - now rewrite H.
    - rewrite Hd, Hi. apply orb_true_r. }
  reflexivity.
Qed.

(** ** Payment details *)

(** C4, amended.  Type "ach_debit" gives the label "ACH Debit" and type
    "card" gives "Card", with the last4 of the sub-object stored under
    the type.  A type outside the table raises no error of its own: the
    method is then no label of the table (undefined, or what
    [Object.prototype] holds under that name).  When the details carry a
    sub-object under the type, extraction succeeds with that sub-object's
    last4; when they carry none it succeeds with an undefined last4 if
    the type is "type" or a name of [Object.prototype], and otherwise
    fails with the TypeError of reading last4 of undefined. *)
Theorem extractPaymentDetails_table pmd :
  (forall sub,
      pmd_type pmd = "ach_debit" ->
      lookup "ach_debit" (pmd_props pmd) = Some sub ->
      extractPaymentDetails (Some pmd) = Returned (Js.Label "ACH Debit", last4 sub)) /\
  (forall sub,
      pmd_type pmd = "card" ->
      lookup "card" (pmd_props pmd) = Some sub ->
      extractPaymentDetails (Some pmd) = Returned (Js.Label "Card", last4 sub)) /\
  (pmd_type pmd <> "ach_debit" -> pmd_type pmd <> "card" ->
   let method := if Js.inherited (pmd_type pmd)
                 then Js.Inherited (pmd_type pmd) else Js.NoLabel in
   (forall sub,
       lookup (pmd_type pmd) (pmd_props pmd) = Some sub ->
       pmd_type pmd <> "type" ->
       extractPaymentDetails (Some pmd) = Returned (method, last4 sub)) /\
   (lookup (pmd_type pmd) (pmd_props pmd) = None ->
    pmd_type pmd <> "type" ->
    Js.inherited (pmd_type pmd) = false ->
    extractPaymentDetails (Some pmd) = Thrown TypeError) /\
   (lookup (pmd_type pmd) (pmd_props pmd) = None ->
    Js.inherited (pmd_type pmd) = true ->
    extractPaymentDetails (Some pmd) = Returned (Js.Inherited (pmd_type pmd), None)) /\
   (pmd_type pmd = "type" ->
    extractPaymentDetails (Some pmd) = Returned (Js.NoLabel, None))).
Proof.
  unfold extractPaymentDetails, methodOf. split; [|split].
  - intros sub Ht Hl. rewrite Ht, Hl. reflexivity.
  - intros sub Ht Hl. rewrite Ht, Hl. reflexivity.
  - intros Hach Hcard.
    assert (Hm : lookup (pmd_type pmd) methodTypes = None).
    { cbv beta iota delta [lookup methodTypes].
      replace ("ach_debit" =? pmd_type pmd) with false
        by (symmetry; apply String.eqb_neq; congruence).
      replace ("card" =? pmd_type pmd) with false
        by (symmetry; apply String.eqb_neq; congruence).
      reflexivity. }
    rewrite Hm. cbv zeta. repeat split.
    + intros sub Hl Ht. apply String.eqb_neq in Ht. now rewrite Ht, Hl.
    + intros Hl Ht Hi. apply String.eqb_neq in Ht. now rewrite Ht, Hl, Hi.
    + intros Hl Hi. rewrite Hl, Hi.
      destruct (pmd_type pmd =? "type") eqn:E; [|reflexivity].
      apply String.eqb_eq in E. rewrite E in Hi. discriminate Hi.
    + intros Ht. now rewrite Ht.
Qed.

(** ** Repositories *)

Lemma gateway_loadAll_returns churchId db :
  failing GatewayLoadAll = false ->
  gateway_loadAll churchId db = (Returned (tenant_gateways churchId db), db).
Proof. intros H. unfold gateway_loadAll. now rewrite repo_ok. Qed.

Lemma eventLog_load_returns churchId id db :
  failing EventLogLoad = false ->
  eventLog_load churchId id db = (Returned (logged_event churchId id db), db).
Proof. intros H. unfold eventLog_load. now rewrite repo_ok. Qed.

Lemma eventLog_create_returns e db :
  failing EventLogCreate = false ->
  eventLog_create e db = (Returned tt, update_eventLogs (fun l => l ++ [e]) db).
Proof. intros H. unfold eventLog_create. now rewrite repo_ok. Qed.

Lemma customer_load_returns churchId id db :
  failing CustomerLoad = false ->
  customer_load churchId id db = (Returned (stored_customer churchId id db), db).
Proof. intros H. unfold customer_load. now rewrite repo_ok. Qed.


Lemma save_row_new {A} (getId : A -> option string) churchOf setId (row : A) rows n :
  getId row = None ->
  save_row genId getId churchOf setId row rows n
  = (setId (genId n) row, rows ++ [setId (genId n) row], S n).
Proof.
  intros H. unfold save_row. now rewrite H.
Qed.

Lemma save_row_stored {A} (getId : A -> option string) churchOf setId (row : A) rows n :
  In (fst (fst (save_row genId getId churchOf setId row rows n)))
     (snd (fst (save_row genId getId churchOf setId row rows n))).
Proof.
  unfold save_row. destruct (Js.truthy (getId row)); simpl;
    apply in_or_app; right; now left.
Qed.

Lemma fundDonation_saves_return rows db :
  (forall f, failing (FundDonationSave f) = false) ->
  Forall (fun r => fd_id r = None) rows ->
  promise_all (map fundDonation_save rows) db
  = (Returned (with_ids genId set_fd_id (nextId db) rows),
     update_fundDonations
       (fun l => l ++ with_ids genId set_fd_id (nextId db) rows)
       (nextId db + length rows) db).
Proof.
  intros Hok Hnew. revert db.
  induction Hnew as [|r rows Hr _ IH]; intros db.
  - destruct db. unfold update_fundDonations. simpl.
    now rewrite app_nil_r, Nat.add_0_r.
  - cbn [map promise_all]. unfold fundDonation_save at 1.
    rewrite repo_ok by apply Hok. rewrite save_row_new by exact Hr.
    rewrite IH. unfold update_fundDonations. simpl.
    rewrite <- app_assoc. simpl. do 2 f_equal. lia.
Qed.

Lemma subscriptionFund_saves_return rows db :
  (forall f, failing (SubscriptionFundSave f) = false) ->
  Forall (fun r => sf_id r = None) rows ->
  promise_all (map subscriptionFund_save rows) db
  = (Returned (with_ids genId set_sf_id (nextId db) rows),
     update_subscriptionFunds
       (fun l => l ++ with_ids genId set_sf_id (nextId db) rows)
       (nextId db + length rows) db).
Proof.
  intros Hok Hnew. revert db.
  induction Hnew as [|r rows Hr _ IH]; intros db.
  - destruct db. unfold update_subscriptionFunds. simpl.
    now rewrite app_nil_r, Nat.add_0_r.
  - cbn [map promise_all]. unfold subscriptionFund_save at 1.
    rewrite repo_ok by apply Hok. rewrite save_row_new by exact Hr.
    rewrite IH. unfold update_subscriptionFunds. simpl.
    rewrite <- app_assoc. simpl. do 2 f_equal. lia.
Qed.

Lemma getOrCreateCurrent_returns churchId db :
  failing DonationBatchGetOrCreateCurrent = false ->
  exists batch db1,
    donationBatch_getOrCreateCurrent churchId db = (Returned batch, db1) /\
    In batch (donationBatches db1) /\
    b_churchId batch = churchId /\ b_current batch = true /\
    donations db1 = donations db /\ fundDonations db1 = fundDonations db /\
    eventLogs db1 = eventLogs db.
Proof.
  intros H. unfold donationBatch_getOrCreateCurrent. rewrite repo_ok by exact H.
  destruct (current_batch churchId db) as [b|] eqn:E.
  - exists b, db. unfold current_batch in E. apply find_some in E.
    destruct E as [Hin Hb]. apply andb_prop in Hb. destruct Hb as [Hc Hcur].
    apply String.eqb_eq in Hc. repeat split; assumption.
  - eexists _, _. split; [reflexivity|]. simpl.
    repeat split. apply in_or_app. right. now left.
Qed.

Lemma donation_save_returns d db :
  failing DonationSave = false ->
  exists donation db2 i,
    donation_save d db = (Returned donation, db2) /\
    donation = set_d_id i d /\
    In donation (donations db2) /\
    (d_id d = None -> donations db2 = donations db ++ [donation]) /\
    fundDonations db2 = fundDonations db /\
    eventLogs db2 = eventLogs db.
Proof.
  intros H. unfold donation_save. rewrite repo_ok by exact H.
  pose proof (save_row_stored d_id d_churchId set_d_id d (donations db) (nextId db))
    as Hin.
  unfold save_row in *. destruct (Js.truthy (d_id d)) eqn:E; simpl in *.
  - destruct (d_id d) as [i|] eqn:Hi; [|discriminate].
    eexists _, _, i. split; [reflexivity|]. simpl.
    repeat split; try assumption; try discriminate.
    destruct d; simpl in *. now subst.
  - eexists _, _, (genId (nextId db)). split; [reflexivity|]. simpl.
    repeat split; try assumption.
Qed.

Lemma fund_rows_allocated donation n fs :
  Forall2
    (fun fund row =>
       fd_donationId row = d_id donation /\ fd_fundId row = fund_id fund /\
       fd_amount row = fund_amount fund /\ fd_churchId row = d_churchId donation /\
       exists j, fd_id row = Some j)
    fs (with_ids genId set_fd_id n (map (fundDonationOf donation) fs)).
Proof.
  revert n. induction fs as [|f fs IH]; intros n; simpl; constructor; auto.
  simpl. repeat split. now exists (genId n).
Qed.

Lemma fund_rows_amounts donation n fs :
  map fd_amount (with_ids genId set_fd_id n (map (fundDonationOf donation) fs))
  = map fund_amount fs.
Proof.
  revert n. induction fs as [|f fs IH]; intros n; simpl; [reflexivity|].
  now rewrite IH.
Qed.

(** ** [logDonation] *)

Lemma logDonation_returned d fs db batch db1 donation db2 :
  donationBatch_getOrCreateCurrent (d_churchId d) db = (Returned batch, db1) ->
  donation_save (set_d_batchId (Some (b_id batch)) d) db1 = (Returned donation, db2) ->
  (forall f, failing (FundDonationSave f) = false) ->
  logDonation d fs db
  = (Returned (with_ids genId set_fd_id (nextId db2) (map (fundDonationOf donation) fs)),
     update_fundDonations
       (fun l => l ++ with_ids genId set_fd_id (nextId db2)
                                (map (fundDonationOf donation) fs))
       (nextId db2 + length fs) db2).
Proof.
  intros Hb Hd Hf. unfold logDonation.
  erewrite bind_returned by exact Hb. cbv zeta.
  erewrite bind_returned by exact Hd.
  rewrite <- (map_map (fundDonationOf donation) fundDonation_save).
  rewrite fundDonation_saves_return; [now rewrite length_map | exact Hf |].
  apply Forall_forall. intros r Hr. apply in_map_iff in Hr.
  destruct Hr as (f & <- & _). reflexivity.
Qed.

Lemma logDonation_runs d fs db :
  failing DonationBatchGetOrCreateCurrent = false ->
  failing DonationSave = false ->
  (forall f, failing (FundDonationSave f) = false) ->
  exists batch donation i rows db',
    logDonation d fs db = (Returned rows, db') /\
    fst (donationBatch_getOrCreateCurrent (d_churchId d) db) = Returned batch /\
    donation = set_d_id i (set_d_batchId (Some (b_id batch)) d) /\
    In donation (donations db') /\
    (d_id d = None -> donations db' = donations db ++ [donation]) /\
    Forall2
      (fun fund row =>
         fd_donationId row = Some i /\ fd_fundId row = fund_id fund /\
         fd_amount row = fund_amount fund /\ fd_churchId row = d_churchId d /\
         exists j, fd_id row = Some j)
      fs rows /\
    fundDonations db' = fundDonations db ++ rows /\
    eventLogs db' = eventLogs db.
Proof.
  intros Hb Hd Hf.
  destruct (getOrCreateCurrent_returns (d_churchId d) db Hb)
    as (batch & db1 & Eb & _ & _ & _ & Hd1 & Hf1 & He1).
  destruct (donation_save_returns (set_d_batchId (Some (b_id batch)) d) db1 Hd)
    as (donation & db2 & i & Ed & Hdon & Hin & Happ & Hf2 & He2).
  eexists batch, donation, i, _, _.
  split; [exact (logDonation_returned _ fs _ _ _ _ _ Eb Ed Hf)|].
  rewrite Eb. simpl.
  repeat split; try assumption.
  - intros Hnone. rewrite <- Hd1. now apply Happ.
  - assert (Hi : d_id donation = Some i) by (subst donation; reflexivity).
    assert (Hc : d_churchId donation = d_churchId d) by (subst donation; reflexivity).
    eapply Forall2_impl; [|exact (fund_rows_allocated donation (nextId db2) fs)].
    cbv beta. intros fund row. now rewrite Hi, Hc.
  - congruence.
  - congruence.
Qed.

(** What [getOrCreateCurrent] hands out is the tenant's current batch in
    the store it leaves: the one that was current before, or a new one
    appended to the batches when the tenant had none. *)
Lemma find_snoc {A} (p : A -> bool) l b :
  find p l = None -> find p (l ++ [b]) = if p b then Some b else None.
Proof.
  induction l as [|a l IH]; simpl; [reflexivity|].
  destruct (p a); [discriminate | exact IH].
Qed.

Lemma getOrCreateCurrent_current churchId db :
  failing DonationBatchGetOrCreateCurrent = false ->
  exists batch db1,
    donationBatch_getOrCreateCurrent churchId db = (Returned batch, db1) /\
    current_batch churchId db1 = Some batch /\
    (current_batch churchId db = Some batch /\ db1 = db \/
     current_batch churchId db = None /\
     donationBatches db1 = donationBatches db ++ [batch]).
Proof.
  intros H. unfold donationBatch_getOrCreateCurrent. rewrite repo_ok by exact H.
  destruct (current_batch churchId db) as [b|] eqn:E.
  - exists b, db. auto.
  - eexists _, _. split; [reflexivity|]. split; [|right; split; reflexivity].
    unfold current_batch in *. simpl. rewrite find_snoc by exact E.
    simpl. now rewrite String.eqb_refl.
Qed.

Lemma keeps_donation_save {T} (proj : DB -> T) d :
  (forall g n db, proj (update_donations g n db) = proj db) ->
  keeps proj (donation_save d).
Proof.
  intros H. apply keeps_repo. intros db.
  destruct (save_row genId d_id d_churchId set_d_id d (donations db) (nextId db))
    as [[? ?] ?].
  apply H.
Qed.

Lemma donation_save_stored d db :
  failing DonationSave = false ->
  exists i db2,
    donation_save d db = (Returned (set_d_id i d), db2) /\
    donationBatches db2 = donationBatches db /\
    fundDonations db2 = fundDonations db /\
    In (set_d_id i d) (donations db2) /\
    (Js.truthy (d_id d) = true -> d_id d = Some i) /\
    (Js.truthy (d_id d) = false ->
     i = genId (nextId db) /\ donations db2 = donations db ++ [set_d_id i d]).
Proof.
  intros H. unfold donation_save. rewrite repo_ok by exact H.
  unfold save_row. destruct (Js.truthy (d_id d)) eqn:E.
  - destruct (d_id d) as [i|] eqn:Hi; [|discriminate].
    assert (Hd : set_d_id i d = d) by (destruct d; simpl in *; now subst).
    exists i. eexists. rewrite Hd. split; [reflexivity|]. simpl.
    repeat split; try discriminate.
    apply in_or_app. right. now left.
  - exists (genId (nextId db)). eexists. split; [reflexivity|]. simpl.
    repeat split; try discriminate.
    apply in_or_app. right. now left.
Qed.

(** What [logDonation] leaves in the store when every call is accepted. *)
Lemma logDonation_stores d fs db :
  failing DonationBatchGetOrCreateCurrent = false ->
  failing DonationSave = false ->
  (forall f, failing (FundDonationSave f) = false) ->
  exists batch donation i rows,
    fst (donationBatch_getOrCreateCurrent (d_churchId d) db) = Returned batch /\
    donation = set_d_id i (set_d_batchId (Some (b_id batch)) d) /\
    In donation (donations (snd (logDonation d fs db))) /\
    fst (logDonation d fs db) = Returned rows /\
    Forall2
      (fun fund row =>
         fd_donationId row = Some i /\ fd_fundId row = fund_id fund /\
         fd_amount row = fund_amount fund /\ fd_churchId row = d_churchId d /\
         exists j, fd_id row = Some j)
      fs rows /\
    fundDonations (snd (logDonation d fs db)) = fundDonations db ++ rows /\
    current_batch (d_churchId d) (snd (logDonation d fs db)) = Some batch /\
    (current_batch (d_churchId d) db = Some batch /\
     donationBatches (snd (logDonation d fs db)) = donationBatches db
     \/
     current_batch (d_churchId d) db = None /\
     donationBatches (snd (logDonation d fs db)) = donationBatches db ++ [batch]) /\
    d_batchId donation = Some (b_id batch) /\
    d_id donation = Some i /\
    (Js.truthy (d_id d) = true -> d_id d = Some i) /\
    (Js.truthy (d_id d) = false ->
     donations (snd (logDonation d fs db)) = donations db ++ [donation]) /\
    d_churchId donation = d_churchId d /\
    d_amount donation = d_amount d /\
    d_personId donation = d_personId d /\
    d_method donation = d_method d /\
    d_methodDetails donation = d_methodDetails d /\
    d_donationDate donation = d_donationDate d.
Proof.
  intros Hb Hd Hf.
  destruct (getOrCreateCurrent_current (d_churchId d) db Hb)
    as (batch & db1 & Eb & Hcur & Hwas).
  destruct (donation_save_stored (set_d_batchId (Some (b_id batch)) d) db1 Hd)
    as (i & db2 & Ed & Hb2 & Hf2 & Hin & Hhas & Hnew).
  pose proof (getOrCreateCurrent_returns (d_churchId d) db Hb)
    as (batch' & db1' & Eb' & _ & _ & _ & Hd1 & Hf1 & _).
  rewrite Eb in Eb'. injection Eb' as <- <-.
  exists batch, (set_d_id i (set_d_batchId (Some (b_id batch)) d)), i.
  eexists.
  rewrite (logDonation_returned _ fs _ _ _ _ _ Eb Ed Hf). rewrite Eb.
  cbn [fst snd]. unfold update_fundDonations, current_batch in *.
  cbn [donations fundDonations donationBatches].
  split; [reflexivity|]. split; [reflexivity|]. split; [exact Hin|].
  split; [reflexivity|].
  split.
  { eapply Forall2_impl;
      [|exact (fund_rows_allocated
                 (set_d_id i (set_d_batchId (Some (b_id batch)) d)) (nextId db2) fs)].
    cbv beta. intros fund row H. exact H. }
  split; [now rewrite Hf2, Hf1|].
  rewrite Hb2.
  split; [exact Hcur|].
  split.
  { destruct Hwas as [[Hsome ->]|[Hnone Happ]]; [left | right]; auto. }
  split; [reflexivity|]. split; [reflexivity|].
  split; [exact Hhas|].
  split.
  { intros Hfalse. destruct (Hnew Hfalse) as [_ Happ]. now rewrite Happ, Hd1. }
  repeat split.
Qed.

(** C7.  When the storage layer accepts the calls, [logDonation] takes
    the tenant's current batch from [getOrCreateCurrent] (the batch that
    is the tenant's current one in the store afterwards: the one it had,
    or a new one appended to the batches), stores the donation with
    batchId set to that batch's id and every other field as given (under
    the id it has, or under a fresh one when it has none, and then as a
    new row), stores one FundDonation per allocation, each referencing the
    donation's id and carrying the allocation's fund id and amount, and
    returns exactly the stored FundDonation rows. *)
Theorem logDonation_contract d fs db :
  failing DonationBatchGetOrCreateCurrent = false ->
  failing DonationSave = false ->
  (forall f, failing (FundDonationSave f) = false) ->
  exists batch donation i rows,
    fst (donationBatch_getOrCreateCurrent (d_churchId d) db) = Returned batch /\
    donation = set_d_id i (set_d_batchId (Some (b_id batch)) d) /\
    In donation (donations (snd (logDonation d fs db))) /\
    fst (logDonation d fs db) = Returned rows /\
    Forall2
      (fun fund row =>
         fd_donationId row = Some i /\ fd_fundId row = fund_id fund /\
         fd_amount row = fund_amount fund /\ fd_churchId row = d_churchId d /\
         exists j, fd_id row = Some j)
      fs rows /\
    fundDonations (snd (logDonation d fs db)) = fundDonations db ++ rows /\
    current_batch (d_churchId d) (snd (logDonation d fs db)) = Some batch /\
    (current_batch (d_churchId d) db = Some batch /\
     donationBatches (snd (logDonation d fs db)) = donationBatches db
     \/
     current_batch (d_churchId d) db = None /\
     donationBatches (snd (logDonation d fs db)) = donationBatches db ++ [batch]) /\
    d_batchId donation = Some (b_id batch) /\
    d_id donation = Some i /\
    (Js.truthy (d_id d) = true -> d_id d = Some i) /\
    (Js.truthy (d_id d) = false ->
     donations (snd (logDonation d fs db)) = donations db ++ [donation]) /\
    d_churchId donation = d_churchId d /\
    d_amount donation = d_amount d /\
    d_personId donation = d_personId d /\
    d_method donation = d_method d /\
    d_methodDetails donation = d_methodDetails d /\
    d_donationDate donation = d_donationDate d.
Proof. exact (logDonation_stores d fs db). Qed.

Lemma keeps_getOrCreateCurrent_eventLogs churchId :
  keeps eventLogs (donationBatch_getOrCreateCurrent churchId).
Proof.
  apply keeps_repo. intros db. destruct (current_batch churchId db); reflexivity.
Qed.

Lemma keeps_donation_save_eventLogs d : keeps eventLogs (donation_save d).
Proof.
  apply keeps_repo. intros db.
  destruct (save_row genId d_id d_churchId set_d_id d (donations db) (nextId db)) as [[? ?] ?].
  reflexivity.
Qed.

Lemma keeps_fundDonation_save {T} (proj : DB -> T) f :
  (forall g n db, proj (update_fundDonations g n db) = proj db) ->
  keeps proj (fundDonation_save f).
Proof.
  intros H. apply keeps_repo. intros db.
  destruct (save_row genId fd_id fd_churchId set_fd_id f (fundDonations db) (nextId db)) as [[? ?] ?].
  apply H.
Qed.

Lemma keeps_fundDonation_saves {T} (proj : DB -> T) donation fs :
  (forall g n db, proj (update_fundDonations g n db) = proj db) ->
  keeps proj
    (promise_all (map (fun fund => fundDonation_save (fundDonationOf donation fund)) fs)).
Proof.
  intros H. apply keeps_promise_all. apply Forall_forall. intros p Hp.
  apply in_map_iff in Hp. destruct Hp as (f & <- & _).
  now apply keeps_fundDonation_save.
Qed.

Lemma logDonation_keeps_eventLogs d fs : keeps eventLogs (logDonation d fs).
Proof.
  unfold logDonation. apply keeps_bind; [apply keeps_getOrCreateCurrent_eventLogs|].
  intros batch. apply keeps_bind; [apply keeps_donation_save_eventLogs|].
  intros donation. now apply keeps_fundDonation_saves.
Qed.

(** The donation is stored even when a fund allocation is refused. *)
Lemma logDonation_stores_donation d fs db :
  failing DonationBatchGetOrCreateCurrent = false ->
  failing DonationSave = false ->
  d_id d = None ->
  exists batch i,
    donations (snd (logDonation d fs db))
    = donations db ++ [set_d_id i (set_d_batchId (Some (b_id batch)) d)].
Proof.
  intros Hb Hd Hnew.
  destruct (getOrCreateCurrent_returns (d_churchId d) db Hb)
    as (batch & db1 & Eb & _ & _ & _ & Hd1 & _ & _).
  destruct (donation_save_returns (set_d_batchId (Some (b_id batch)) d) db1 Hd)
    as (donation & db2 & i & Ed & Hdon & _ & Happ & _ & _).
  exists batch, i. unfold logDonation.
  erewrite bind_returned by exact Eb. cbv zeta.
  erewrite bind_returned by exact Ed.
  rewrite (keeps_fundDonation_saves donations donation fs) by reflexivity.
  rewrite Happ by exact Hnew. now rewrite Hd1, Hdon.
Qed.

(** ** The blocks of the webhook *)

Lemma fundsOf_metadata churchId d md db fl :
  metadata d = Some md ->
  Js.truthy (funds md) = true ->
  JSON_parse (Js.to_str (funds md)) = Returned fl ->
  fundsOf churchId d db = (Returned fl, db).
Proof. intros Hm Ht Hp. unfold fundsOf. rewrite Hm, Ht. unfold lift. now rewrite Hp. Qed.


(** [fundsOf] reads the SubscriptionFund table and nothing else. *)
Lemma fundsOf_reads_subscriptionFunds churchId d db db' fl :
  fundsOf churchId d db = (Returned fl, db) ->
  subscriptionFunds db' = subscriptionFunds db ->
  fundsOf churchId d db' = (Returned fl, db').
Proof.
  unfold fundsOf. intros H Hs. destruct (metadata d) as [md|]; [|discriminate].
  destruct (Js.truthy (funds md)).
  - unfold lift in *. congruence.
  - unfold bind, subscriptionFund_loadBySubscriptionId, repo, throw, ret in *.
    destruct (failing SubscriptionFundLoadBySubscriptionId); [discriminate|].
    rewrite Hs. congruence.
Qed.

Lemma init_logEvent_existing churchId ev db e :
  logged_event churchId (ev_id ev) db = Some e ->
  snd (init_logEvent churchId ev db) = db.
Proof.
  intros H. unfold init_logEvent, bind, eventLog_load, repo.
  destruct (failing EventLogLoad); [reflexivity|]. now rewrite H.
Qed.

Lemma init_logEvent_skipped churchId ev db e :
  failing EventLogLoad = false ->
  logged_event churchId (ev_id ev) db = Some e ->
  init_logEvent churchId ev db = (Returned tt, db).
Proof.
  intros Hl H. unfold init_logEvent.
  erewrite bind_returned by (now apply eventLog_load_returns).
  now rewrite H.
Qed.

Lemma init_logEvent_new churchId ev db message :
  failing EventLogLoad = false ->
  failing EventLogCreate = false ->
  logged_event churchId (ev_id ev) db = None ->
  eventMessage (ev_data ev) = Returned message ->
  init_logEvent churchId ev db
  = (Returned tt, update_eventLogs (fun l => l ++ [eventLogOf churchId ev message]) db).
Proof.
  intros Hl Hc Hnone Hm. unfold init_logEvent.
  erewrite bind_returned by (now apply eventLog_load_returns).
  rewrite Hnone. erewrite bind_returned by (unfold lift; rewrite Hm; reflexivity).
  now apply eventLog_create_returns.
Qed.

Lemma init_logEvent_keeps {T} (proj : DB -> T) churchId ev :
  (forall g db, proj (update_eventLogs g db) = proj db) ->
  keeps proj (init_logEvent churchId ev).
Proof.
  intros H. unfold init_logEvent. apply keeps_bind.
  - apply keeps_repo. intros db. reflexivity.
  - intros [e|]; [apply keeps_ret|].
    apply keeps_bind; [apply keeps_lift|]. intros m.
    apply keeps_repo. intros db. apply H.
Qed.

Lemma init_logDonation_skipped churchId ev method methodDetails db :
  isDonationEvent (ev_type ev) = false ->
  init_logDonation churchId ev method methodDetails db = (Returned tt, db).
Proof. intros H. unfold init_logDonation. now rewrite H. Qed.

Lemma init_logDonation_keeps_eventLogs churchId ev method methodDetails :
  keeps eventLogs (init_logDonation churchId ev method methodDetails).
Proof.
  unfold init_logDonation. destruct (isDonationEvent (ev_type ev)); [|apply keeps_ret].
  apply keeps_bind; [apply keeps_repo; intros db; reflexivity|].
  intros cust. apply keeps_bind; [destruct cust; [apply keeps_ret | apply keeps_throw]|].
  intros personId. cbv zeta. apply keeps_bind.
  - unfold fundsOf. destruct (metadata (ev_data ev)) as [md|]; [|apply keeps_throw].
    destruct (Js.truthy (funds md)); [apply keeps_lift|].
    apply keeps_bind; [apply keeps_repo; intros db; reflexivity|].
    intros rows. apply keeps_ret.
  - intros fl. apply keeps_bind; [apply logDonation_keeps_eventLogs|].
    intros _. apply keeps_ret.
Qed.

Lemma init_logDonation_runs churchId ev method methodDetails db cust fl :
  isDonationEvent (ev_type ev) = true ->
  failing CustomerLoad = false ->
  stored_customer churchId (customer (ev_data ev)) db = Some cust ->
  fundsOf churchId (ev_data ev) db = (Returned fl, db) ->
  snd (init_logDonation churchId ev method methodDetails db)
  = snd (logDonation
           (donationOf churchId (ev_data ev) (c_personId cust) method methodDetails)
           fl db).
Proof.
  intros Ht Hc Hcust Hfl. unfold init_logDonation. rewrite Ht.
  erewrite bind_returned by (now apply customer_load_returns).
  rewrite Hcust. erewrite bind_returned by reflexivity. cbv zeta.
  erewrite bind_returned by exact Hfl.
  unfold bind. destruct (logDonation _ fl db) as [[rows|e] db']; reflexivity.
Qed.

Lemma init_event_blocks churchId secretKey ev db pmd details :
  (ev_type ev =? "charge.succeeded") && subscriptionEvent (ev_data ev) = false ->
  paymentMethodDetailsOf secretKey (ev_data ev) = Returned pmd ->
  extractPaymentDetails pmd = Returned details ->
  init_event churchId secretKey ev db
  = (init_logEvent churchId ev ;;;
     init_logDonation churchId ev (fst details) (snd details) ;;;
     ret Undefined) db.
Proof.
  intros Hs Hp He. unfold init_event. rewrite Hs.
  erewrite bind_returned by (unfold lift; rewrite Hp; reflexivity).
  erewrite bind_returned by (unfold lift; rewrite He; reflexivity).
  reflexivity.
Qed.

Lemma not_donation_event_not_suppressed ev :
  isDonationEvent (ev_type ev) = false ->
  (ev_type ev =? "charge.succeeded") && subscriptionEvent (ev_data ev) = false.
Proof.
  unfold isDonationEvent. intros H. apply orb_false_elim in H.
  destruct H as [-> _]. reflexivity.
Qed.

(** ** Events outside the recognized set *)

(** C8, amended.  A verified event whose type is neither charge.succeeded
    nor invoice.paid creates no Donation and no FundDonation, but it is
    not ignored: when its payment details can be read, its message can be
    built and the log has no entry for its id, one EventLogEntry is
    appended for it. *)
Theorem unrecognized_event_is_logged_not_donated req db churchId secretKey ev :
  verified req db churchId secretKey ev ->
  isDonationEvent (ev_type ev) = false ->
  no_donation_written (init req) db /\
  (forall pmd details message,
      paymentMethodDetailsOf secretKey (ev_data ev) = Returned pmd ->
      extractPaymentDetails pmd = Returned details ->
      failing EventLogLoad = false ->
      failing EventLogCreate = false ->
      logged_event churchId (ev_id ev) db = None ->
      eventMessage (ev_data ev) = Returned message ->
      init req db
      = (Returned Undefined,
         update_eventLogs (fun l => l ++ [eventLogOf churchId ev message]) db)).
Proof.
  intros Hv Ht. unfold no_donation_written. rewrite !(init_verified _ _ _ _ _ Hv).
  pose proof (not_donation_event_not_suppressed ev Ht) as Hs.
  split.
  - assert (K : forall T (proj : DB -> T),
               (forall g db, proj (update_eventLogs g db) = proj db) ->
               keeps proj (init_event churchId secretKey ev)).
    { intros T proj Hproj. unfold init_event. rewrite Hs.
      apply keeps_bind; [apply keeps_lift|]. intros pmd.
      apply keeps_bind; [apply keeps_lift|]. intros details. cbv zeta.
      apply keeps_bind; [now apply init_logEvent_keeps|]. intros _.
      apply keeps_bind; [|intros _; apply keeps_ret].
      intros db'. now rewrite init_logDonation_skipped. }
    split; apply K; reflexivity.
  - intros pmd details message Hp He Hl Hc Hnone Hm.
    rewrite (init_event_blocks _ _ _ _ _ _ Hs Hp He).
    erewrite bind_returned by (eapply init_logEvent_new; eassumption).
    erewrite bind_returned by (now apply init_logDonation_skipped).
    reflexivity.
Qed.

(** ** Redelivery *)

(** C1, amended.  When the event log already holds an entry of the tenant
    for the id of a verified event, handling the event again adds no
    second EventLogEntry.  The entry does not guard the donation: for a
    charge.succeeded or invoice.paid event whose steps succeed, a Donation
    row and one FundDonation row per fund are appended again. *)
Theorem webhook_replay_keeps_event_log req db churchId secretKey ev entry :
  verified req db churchId secretKey ev ->
  logged_event churchId (ev_id ev) db = Some entry ->
  eventLogs (snd (init req db)) = eventLogs db /\
  (forall pmd details cust fl,
      isDonationEvent (ev_type ev) = true ->
      (ev_type ev =? "charge.succeeded") && subscriptionEvent (ev_data ev) = false ->
      paymentMethodDetailsOf secretKey (ev_data ev) = Returned pmd ->
      extractPaymentDetails pmd = Returned details ->
      failing EventLogLoad = false ->
      failing CustomerLoad = false ->
      stored_customer churchId (customer (ev_data ev)) db = Some cust ->
      fundsOf churchId (ev_data ev) db = (Returned fl, db) ->
      failing DonationBatchGetOrCreateCurrent = false ->
      failing DonationSave = false ->
      (forall f, failing (FundDonationSave f) = false) ->
      exists donation rows,
        donations (snd (init req db)) = donations db ++ [donation] /\
        fundDonations (snd (init req db)) = fundDonations db ++ rows /\
        length rows = length fl).
Proof.
  intros Hv Hlogged. rewrite (init_verified _ _ _ _ _ Hv).
  pose proof (init_logEvent_existing churchId ev db entry Hlogged) as Hsame.
  split.
  - unfold init_event.
    destruct ((ev_type ev =? "charge.succeeded") && subscriptionEvent (ev_data ev));
      [reflexivity|].
    unfold bind at 1, lift at 1.
    destruct (paymentMethodDetailsOf secretKey (ev_data ev)) as [pmd|e]; [|reflexivity].
    unfold bind at 1, lift at 1.
    destruct (extractPaymentDetails pmd) as [details|e]; [|reflexivity].
    cbv zeta. unfold bind at 1.
    destruct (init_logEvent churchId ev db) as [[[]|e] db1]; simpl in Hsame; subst db1;
      [|reflexivity].
    apply (keeps_bind eventLogs); [apply init_logDonation_keeps_eventLogs|].
    intros _. apply keeps_ret.
  - intros pmd details cust fl Ht Hs Hp He Hl Hc Hcust Hfl Hb Hd Hf.
    rewrite (init_event_blocks _ _ _ _ _ _ Hs Hp He).
    assert (Hrun : snd ((init_logEvent churchId ev ;;;
                         init_logDonation churchId ev (fst details) (snd details) ;;;
                         ret Undefined) db)
                   = snd (logDonation
                            (donationOf churchId (ev_data ev) (c_personId cust)
                                        (fst details) (snd details)) fl db)).
    { erewrite bind_returned by (eapply init_logEvent_skipped; eassumption).
      rewrite <- (init_logDonation_runs _ _ (fst details) (snd details) _ _ _
                                        Ht Hc Hcust Hfl).
      unfold bind.
      destruct (init_logDonation churchId ev (fst details) (snd details) db)
        as [[[]|e] db2]; reflexivity. }
    rewrite Hrun.
    destruct (logDonation_runs
                (donationOf churchId (ev_data ev) (c_personId cust)
                            (fst details) (snd details)) fl db Hb Hd Hf)
      as (batch & donation & i & rows & db' & E & _ & _ & _ & Happ & Hall & Hfd & _).
    exists donation, rows. rewrite E. simpl.
    repeat split; [now apply Happ | exact Hfd |].
    symmetry. exact (Forall2_length Hall).
Qed.

(** ** Amount and message of an invoice *)

Lemma snd_bind_ret {A B} (m : Task A) (b : B) db :
  snd (bind m (fun _ => ret b) db) = snd (m db).
Proof. unfold bind. destruct (m db) as [[a|e] db']; reflexivity. Qed.

(** C3.  The donation amount is the event's amount, or amount_paid when
    the event has no amount, divided by 100.  A verified invoice.paid
    event with amount_paid 2500, billing reason "subscription_cycle" and
    status "paid", not yet in the log, whose steps succeed, appends an
    EventLogEntry with message "subscription_cycle paid" and a Donation of
    amount 25. *)
Theorem invoice_paid_donation_and_message :
  (forall d a, amount d = Some a -> ~ a == 0 -> donationAmount d = Js.Num (a / 100)) /\
  (forall d p, amount d = None -> amount_paid d = Some p ->
               donationAmount d = Js.Num (p / 100)) /\
  (forall req db churchId secretKey ev pmd details cust fl,
      verified req db churchId secretKey ev ->
      ev_type ev = "invoice.paid" ->
      amount (ev_data ev) = None ->
      amount_paid (ev_data ev) = Some 2500 ->
      billing_reason (ev_data ev) = Some "subscription_cycle" ->
      status (ev_data ev) = Some "paid" ->
      paymentMethodDetailsOf secretKey (ev_data ev) = Returned pmd ->
      extractPaymentDetails pmd = Returned details ->
      failing EventLogLoad = false ->
      failing EventLogCreate = false ->
      logged_event churchId (ev_id ev) db = None ->
      failing CustomerLoad = false ->
      stored_customer churchId (customer (ev_data ev)) db = Some cust ->
      fundsOf churchId (ev_data ev) db = (Returned fl, db) ->
      failing DonationBatchGetOrCreateCurrent = false ->
      failing DonationSave = false ->
      exists entry donation q,
        eventLogs (snd (init req db)) = eventLogs db ++ [entry] /\
        el_id entry = ev_id ev /\
        el_message entry = Some "subscription_cycle paid" /\
        donations (snd (init req db)) = donations db ++ [donation] /\
        d_amount donation = Js.Num q /\ q == 25).
Proof.
  split; [|split].
  - intros d a Ha Hnz. unfold donationAmount. rewrite Ha. simpl.
    destruct (Qeq_bool a 0) eqn:E; [apply Qeq_bool_iff in E; contradiction|].
    reflexivity.
  - intros d p Ha Hp. unfold donationAmount. now rewrite Ha, Hp.
  - intros req db churchId secretKey ev pmd details cust fl
           Hv Ht Ha Hap Hbr Hst Hp He Hl Hc Hnone Hcl Hcust Hfl Hb Hd.
    rewrite (init_verified _ _ _ _ _ Hv).
    assert (Hs : (ev_type ev =? "charge.succeeded") && subscriptionEvent (ev_data ev)
                 = false) by now rewrite Ht.
    assert (Hm : eventMessage (ev_data ev) = Returned (Some "subscription_cycle paid"))
      by (unfold eventMessage; now rewrite Hbr, Hst).
    rewrite (init_event_blocks _ _ _ _ _ _ Hs Hp He).
    erewrite bind_returned by (eapply init_logEvent_new; eassumption).
    set (entry := eventLogOf churchId ev (Some "subscription_cycle paid")).
    set (db1 := update_eventLogs (fun l => l ++ [entry]) db).
    rewrite snd_bind_ret.
    assert (Hfl1 : fundsOf churchId (ev_data ev) db1 = (Returned fl, db1))
      by (now apply (fundsOf_reads_subscriptionFunds _ _ db)).
    assert (Hdon : isDonationEvent (ev_type ev) = true) by now rewrite Ht.
    pose proof (init_logDonation_runs churchId ev (fst details) (snd details) db1
                  cust fl Hdon Hcl Hcust Hfl1) as Hrun.
    set (d := donationOf churchId (ev_data ev) (c_personId cust)
                         (fst details) (snd details)) in *.
    destruct (logDonation_stores_donation d fl db1 Hb Hd eq_refl) as (batch & i & Hstored).
    exists entry, (set_d_id i (set_d_batchId (Some (b_id batch)) d)), (2500 / 100).
    repeat split.
    + now rewrite init_logDonation_keeps_eventLogs.
    + now rewrite Hrun, Hstored.
    + simpl. unfold donationAmount. now rewrite Ha, Hap.
Qed.

(** ** POST /donate/log *)

Lemma loadPrivateKey_returns churchId db :
  failing GatewayLoadAll = false ->
  loadPrivateKey churchId db = (Returned (stored_key churchId db), db).
Proof.
  intros H. unfold loadPrivateKey.
  erewrite bind_returned by (now apply gateway_loadAll_returns). reflexivity.
Qed.

Lemma log_accepted req db :
  failing GatewayLoadAll = false ->
  stored_key (d_churchId (body_donation req)) db <> EmptyString ->
  log req db
  = (Returned Undefined, snd (logDonation (body_donation req) [body_fundData req] db)).
Proof.
  intros Hg Hk. unfold log.
  erewrite bind_returned by (now apply loadPrivateKey_returns).
  apply String.eqb_neq in Hk. rewrite Hk. reflexivity.
Qed.

(** C9, as the code has it.  Once the tenant's key is found, the closure
    of [/donate/log] resolves without a value whatever becomes of
    [logDonation]: a rejection of the donation or fund allocation write is
    not the closure's outcome. *)
Theorem log_reply_hides_persistence_failure req db e :
  failing GatewayLoadAll = false ->
  stored_key (d_churchId (body_donation req)) db <> EmptyString ->
  fst (logDonation (body_donation req) [body_fundData req] db) = Thrown e ->
  fst (log req db) = Returned Undefined.
Proof. intros Hg Hk _. now rewrite log_accepted. Qed.

(** C10, amended.  [/donate/log] looks up the secret key stored for the
    tenant named in the donation and asks nothing of the caller.  When the
    tenant has no gateway credentials, or its key decrypts to the empty
    string, the answer is 401 and nothing is written; otherwise the
    donation is logged, whatever the headers of the request. *)
Theorem log_gate_is_stored_key req db :
  failing GatewayLoadAll = false ->
  (stored_key (d_churchId (body_donation req)) db = EmptyString -> log_refused req db) /\
  (stored_key (d_churchId (body_donation req)) db <> EmptyString ->
   forall headers,
     log (with_headers headers req) db
     = (Returned Undefined,
        snd (logDonation (body_donation req) [body_fundData req] db))).
Proof.
  intros Hg. split.
  - intros Hk. unfold log_refused, log.
    erewrite bind_returned by (now apply loadPrivateKey_returns).
    now rewrite Hk.
  - intros Hk headers. now rewrite log_accepted.
Qed.

(** ** Where the fund split comes from *)



Lemma subscription_rows_allocated c sub n fs :
  Forall2
    (fun fund row =>
       sf_churchId row = c /\ sf_subscriptionId row = sub /\
       sf_fundId row = fund_id fund /\ sf_amount row = fund_amount fund /\
       exists j, sf_id row = Some j)
    fs (with_ids genId set_sf_id n (map (subscriptionFundOf c sub) fs)).
Proof.
  revert n. induction fs as [|f fs IH]; intros n; simpl; constructor; auto.
  simpl. repeat split. now exists (genId n).
Qed.



Lemma init_logEvent_returns churchId ev db message :
  failing EventLogLoad = false ->
  failing EventLogCreate = false ->
  eventMessage (ev_data ev) = Returned message ->
  exists db2,
    init_logEvent churchId ev db = (Returned tt, db2) /\
    customers db2 = customers db /\
    subscriptionFunds db2 = subscriptionFunds db /\
    fundDonations db2 = fundDonations db.
Proof.
  intros Hl Hc Hm.
  destruct (logged_event churchId (ev_id ev) db) as [e|] eqn:E.
  - exists db. now rewrite (init_logEvent_skipped _ _ _ e).
  - eexists. rewrite (init_logEvent_new _ _ _ message) by assumption.
    repeat split.
Qed.

Lemma init_logDonation_returns churchId ev method methodDetails db cust fl rows db' :
  isDonationEvent (ev_type ev) = true ->
  failing CustomerLoad = false ->
  stored_customer churchId (customer (ev_data ev)) db = Some cust ->
  fundsOf churchId (ev_data ev) db = (Returned fl, db) ->
  logDonation (donationOf churchId (ev_data ev) (c_personId cust) method methodDetails)
              fl db = (Returned rows, db') ->
  init_logDonation churchId ev method methodDetails db = (Returned tt, db').
Proof.
  intros Ht Hc Hcust Hfl Hlog. unfold init_logDonation. rewrite Ht.
  erewrite bind_returned by (now apply customer_load_returns).
  rewrite Hcust. erewrite bind_returned by reflexivity. cbv zeta.
  erewrite bind_returned by exact Hfl.
  erewrite bind_returned by exact Hlog. reflexivity.
Qed.



End Properties.

(** * Runs on the sample tenant *)

Ltac sample_verified :=
  split; [reflexivity|]; split; [reflexivity|];
  eexists _, _, _;
  repeat (split; [first [reflexivity | discriminate]|]);
  reflexivity.

Lemma charge_verified :
  @verified Sample.live (Sample.webhook "charge" Sample.good) Sample.after_charge
            "church1" "sk_live" Sample.charge_event.
Proof. sample_verified. Defined.

(** C1, counterexample: the one-time charge delivered a second time, with
    its entry in the log, still adds a Donation. *)
Lemma webhook_replay_duplicates_donation :
  logged_event "church1" (ev_id Sample.charge_event) Sample.after_charge <> None /\
  ~ no_donation_written (@init Sample.live (Sample.webhook "charge" Sample.good))
                        Sample.after_charge.
Proof.
  split.
  - vm_compute. discriminate.
  - intros [H _]. apply (f_equal (@length _)) in H. vm_compute in H. discriminate.
Qed.

Lemma webhook_replay_keeps_event_log_witness :
  @verified Sample.live (Sample.webhook "charge" Sample.good) Sample.after_charge
            "church1" "sk_live" Sample.charge_event /\
  eventLogs (snd (@init Sample.live (Sample.webhook "charge" Sample.good)
                        Sample.after_charge))
  = eventLogs Sample.after_charge /\
  exists donation rows,
    donations (snd (@init Sample.live (Sample.webhook "charge" Sample.good)
                          Sample.after_charge))
    = donations Sample.after_charge ++ [donation] /\
    fundDonations (snd (@init Sample.live (Sample.webhook "charge" Sample.good)
                              Sample.after_charge))
    = fundDonations Sample.after_charge ++ rows /\
    length rows = length Sample.two_funds.
Proof.
  split; [exact charge_verified|].
  destruct (@webhook_replay_keeps_event_log Sample.live
              (Sample.webhook "charge" Sample.good) Sample.after_charge
              "church1" "sk_live" Sample.charge_event
              (eventLogOf "church1" Sample.charge_event (Some "Payment complete."))
              charge_verified eq_refl) as [Hlog Hdon].
  split; [exact Hlog|].
  exact (Hdon (Some Sample.card) (Js.Label "Card", Some "4242")
              {| c_id := "cus_1"; c_churchId := "church1"; c_personId := Some "person_1" |}
              Sample.two_funds
              eq_refl eq_refl eq_refl eq_refl eq_refl eq_refl eq_refl eq_refl
              eq_refl eq_refl (fun _ => eq_refl)).
Defined.

Lemma subscription_charge_verified :
  @verified Sample.live (Sample.webhook "subscription charge" Sample.good) Sample.db0
            "church1" "sk_live" Sample.subscription_charge_event.
Proof. sample_verified. Defined.

(** C2, counterexample: a charge.succeeded event described as
    "Subscription creation" leaves no entry in the event log. *)
Lemma subscription_charge_leaves_no_log_entry :
  ev_type Sample.subscription_charge_event = "charge.succeeded" /\
  subscriptionEvent (ev_data Sample.subscription_charge_event) = true /\
  ~ event_logged "church1" Sample.subscription_charge_event
      (snd (@init Sample.live (Sample.webhook "subscription charge" Sample.good)
                  Sample.db0)).
Proof.
  split; [reflexivity|]. split; [reflexivity|].
  intros (e & Hin & _). vm_compute in Hin. exact Hin.
Qed.

Lemma subscription_charge_is_ignored_witness :
  @verified Sample.live (Sample.webhook "subscription charge" Sample.good) Sample.db0
            "church1" "sk_live" Sample.subscription_charge_event /\
  @init Sample.live (Sample.webhook "subscription charge" Sample.good) Sample.db0
  = (Returned (Json 200), Sample.db0).
Proof.
  split; [exact subscription_charge_verified|].
  apply (@subscription_charge_is_ignored Sample.live _ _ "church1" "sk_live"
           Sample.subscription_charge_event subscription_charge_verified eq_refl).
  right. exists "Subscription creation". split; reflexivity.
Defined.

Lemma invoice_verified :
  @verified Sample.live (Sample.webhook "invoice" Sample.good) Sample.db0
            "church1" "sk_live" Sample.invoice_event.
Proof. sample_verified. Defined.

Lemma invoice_paid_donation_and_message_witness :
  exists entry donation q,
    eventLogs (snd (@init Sample.live (Sample.webhook "invoice" Sample.good) Sample.db0))
    = eventLogs Sample.db0 ++ [entry] /\
    el_id entry = "evt_invoice" /\
    el_message entry = Some "subscription_cycle paid" /\
    donations (snd (@init Sample.live (Sample.webhook "invoice" Sample.good) Sample.db0))
    = donations Sample.db0 ++ [donation] /\
    d_amount donation = Js.Num q /\ q == 25.
Proof.
  exact (proj2 (proj2 (@invoice_paid_donation_and_message Sample.live))
           (Sample.webhook "invoice" Sample.good) Sample.db0 "church1" "sk_live"
           Sample.invoice_event (Some Sample.ach) (Js.Label "ACH Debit", Some "6789")
           {| c_id := "cus_1"; c_churchId := "church1"; c_personId := Some "person_1" |}
           []
           invoice_verified eq_refl eq_refl eq_refl eq_refl eq_refl eq_refl eq_refl
           eq_refl eq_refl eq_refl eq_refl eq_refl eq_refl eq_refl eq_refl).
Defined.

(** C4, counterexample: payment details of type "sepa_debit" raise no
    error; they yield an undefined label and the last4 "3000". *)
Lemma sepa_debit_extracts_silently :
  pmd_type Sample.sepa <> "ach_debit" /\
  pmd_type Sample.sepa <> "card" /\
  extractPaymentDetails (Some Sample.sepa) = Returned (Js.NoLabel, Some "3000") /\
  ~ fails_as_unsupported Sample.sepa.
Proof.
  repeat split; try discriminate.
  intros (e & He). discriminate He.
Qed.

Lemma extractPaymentDetails_table_witness :
  extractPaymentDetails (Some Sample.ach) = Returned (Js.Label "ACH Debit", Some "6789") /\
  extractPaymentDetails (Some Sample.card) = Returned (Js.Label "Card", Some "4242") /\
  extractPaymentDetails (Some Sample.sepa) = Returned (Js.NoLabel, Some "3000") /\
  extractPaymentDetails (Some {| pmd_type := "giropay"; pmd_props := [] |})
  = Thrown TypeError /\
  extractPaymentDetails (Some {| pmd_type := "constructor"; pmd_props := [] |})
  = Returned (Js.Inherited "constructor", None).
Proof.
  split; [|split; [|split; [|split]]].
  - exact (proj1 (extractPaymentDetails_table Sample.ach)
             {| last4 := Some "6789" |} eq_refl eq_refl).
  - exact (proj1 (proj2 (extractPaymentDetails_table Sample.card))
             {| last4 := Some "4242" |} eq_refl eq_refl).
  - refine (proj1 (proj2 (proj2 (extractPaymentDetails_table Sample.sepa)) _ _)
              {| last4 := Some "3000" |} eq_refl _); discriminate.
  - refine (proj1 (proj2 (proj2 (proj2 (extractPaymentDetails_table
              {| pmd_type := "giropay"; pmd_props := [] |})) _ _))
              eq_refl _ eq_refl); discriminate.
  - refine (proj1 (proj2 (proj2 (proj2 (proj2 (extractPaymentDetails_table
              {| pmd_type := "constructor"; pmd_props := [] |})) _ _)))
              eq_refl eq_refl); discriminate.
Defined.

(** C5, counterexample: a request of the tenant whose signature the
    provider rejects is not answered 401; the closure fails. *)
Lemma bad_signature_is_not_answered_401 :
  @verifySignature Sample.live "sk_live" "charge" "t=1,v1=forged" "whsec"
  = Thrown InvalidSignature /\
  fst (@init Sample.live (Sample.webhook "charge" "t=1,v1=forged") Sample.db0)
  = Thrown InvalidSignature /\
  ~ @rejected_unauthorized Sample.live (Sample.webhook "charge" "t=1,v1=forged")
      Sample.db0.
Proof.
  repeat split. intros H. discriminate H.
Qed.

Lemma webhook_rejections_write_nothing_witness :
  @init Sample.live (Sample.webhook "charge" "t=1,v1=forged") Sample.db0
  = (Thrown InvalidSignature, Sample.db0) /\
  @rejected_unauthorized Sample.live
    {| query_churchId := Some "church2"; header_stripe_signature := Some Sample.good;
       rawBody := "charge" |} Sample.db0.
Proof.
  split.
  - refine (proj2 (proj2 (@webhook_rejections_write_nothing Sample.live
                            (Sample.webhook "charge" "t=1,v1=forged") Sample.db0
                            "church1" eq_refl eq_refl))
              _ [] "t=1,v1=forged" InvalidSignature eq_refl _ eq_refl eq_refl).
    discriminate.
  - exact (proj1 (@webhook_rejections_write_nothing Sample.live
                    {| query_churchId := Some "church2";
                       header_stripe_signature := Some Sample.good;
                       rawBody := "charge" |}
                    Sample.db0 "church2" eq_refl eq_refl) eq_refl).
Defined.

Lemma charge_verified_first :
  @verified Sample.live (Sample.webhook "charge" Sample.good) Sample.db0
            "church1" "sk_live" Sample.charge_event.
Proof. sample_verified. Defined.



Lemma logDonation_contract_witness :
  exists batch donation i rows,
    fst (@donationBatch_getOrCreateCurrent Sample.live "church1" Sample.db0)
    = Returned batch /\
    donation = set_d_id i (set_d_batchId (Some (b_id batch)) Sample.offline_gift) /\
    In donation
       (donations (snd (@logDonation Sample.live Sample.offline_gift
                                     Sample.two_funds Sample.db0))) /\
    fst (@logDonation Sample.live Sample.offline_gift Sample.two_funds Sample.db0)
    = Returned rows /\
    Forall2
      (fun fund row =>
         fd_donationId row = Some i /\ fd_fundId row = fund_id fund /\
         fd_amount row = fund_amount fund /\ fd_churchId row = "church1" /\
         exists j, fd_id row = Some j)
      Sample.two_funds rows /\
    fundDonations (snd (@logDonation Sample.live Sample.offline_gift
                                     Sample.two_funds Sample.db0))
    = fundDonations Sample.db0 ++ rows /\
    current_batch "church1"
      (snd (@logDonation Sample.live Sample.offline_gift Sample.two_funds Sample.db0))
    = Some batch /\
    d_batchId donation = Some (b_id batch) /\
    d_id donation = Some i.
Proof.
  destruct (@logDonation_contract Sample.live Sample.offline_gift Sample.two_funds
              Sample.db0 eq_refl eq_refl (fun _ => eq_refl))
    as (batch & donation & i & rows & H1 & H2 & H3 & H4 & H5 & H6 & H7 & _ & H9
        & H10 & _).
  exists batch, donation, i, rows.
  exact (conj H1 (conj H2 (conj H3 (conj H4 (conj H5 (conj H6
           (conj H7 (conj H9 H10)))))))).
Defined.

Lemma failed_verified :
  @verified Sample.live (Sample.webhook "failed" Sample.good) Sample.db0
            "church1" "sk_live" Sample.failed_event.
Proof. sample_verified. Defined.

(** C8, counterexample: a verified charge.failed event is not ignored;
    it gets its EventLogEntry. *)
Lemma failed_charge_is_logged :
  isDonationEvent (ev_type Sample.failed_event) = false /\
  event_logged "church1" Sample.failed_event
    (snd (@init Sample.live (Sample.webhook "failed" Sample.good) Sample.db0)) /\
  ~ @event_ignored Sample.live (Sample.webhook "failed" Sample.good) Sample.db0.
Proof.
  split; [reflexivity|]. split.
  - eexists. split; [left; reflexivity|]. split; reflexivity.
  - intros [_ H]. apply (f_equal (@length _)) in H. vm_compute in H. discriminate.
Qed.

Lemma unrecognized_event_is_logged_not_donated_witness :
  no_donation_written (@init Sample.live (Sample.webhook "failed" Sample.good))
                      Sample.db0 /\
  @init Sample.live (Sample.webhook "failed" Sample.good) Sample.db0
  = (Returned Undefined,
     update_eventLogs
       (fun l => l ++ [eventLogOf "church1" Sample.failed_event
                         (Some "Your card was declined. The bank did not return any further details.")])
       Sample.db0).
Proof.
  destruct (@unrecognized_event_is_logged_not_donated Sample.live
              (Sample.webhook "failed" Sample.good) Sample.db0 "church1" "sk_live"
              Sample.failed_event failed_verified eq_refl) as [Hnone Hlog].
  split; [exact Hnone|].
  exact (Hlog (Some Sample.card) (Js.Label "Card", Some "4242") _
              eq_refl eq_refl eq_refl eq_refl eq_refl eq_refl).
Defined.

(** C9, the failing run: the donation table refuses the save, no Donation
    is stored, and the closure of [/donate/log] still resolves. *)
Lemma log_reply_hides_persistence_failure_witness :
  fst (@logDonation Sample.degraded Sample.offline_gift
                    [body_fundData Sample.log_request] Sample.db0)
  = Thrown PersistenceFailure /\
  donations (snd (@log Sample.degraded Sample.log_request Sample.db0)) = [] /\
  fst (@log Sample.degraded Sample.log_request Sample.db0) = Returned Undefined.
Proof.
  split; [reflexivity|]. split; [reflexivity|].
  refine (@log_reply_hides_persistence_failure Sample.degraded Sample.log_request
            Sample.db0 PersistenceFailure eq_refl _ eq_refl).
  discriminate.
Defined.

(** C10, counterexample: a request that carries nothing but the donation
    is not refused, and its donation is stored. *)
Lemma log_accepts_request_without_key :
  log_headers Sample.log_request = [] /\
  ~ @log_refused Sample.live Sample.log_request Sample.db0 /\
  donations (snd (@log Sample.live Sample.log_request Sample.db0)) <> [].
Proof.
  split; [reflexivity|]. split.
  - intros H. discriminate H.
  - vm_compute. discriminate.
Qed.

Lemma log_gate_is_stored_key_witness :
  @log Sample.live (with_headers [("x-api-key", "a guess")] Sample.log_request)
       Sample.db0
  = (Returned Undefined,
     snd (@logDonation Sample.live Sample.offline_gift
                       [body_fundData Sample.log_request] Sample.db0)) /\
  @log_refused Sample.live Sample.log_request Sample.unconfigured.
Proof.
  split.
  - refine (proj2 (@log_gate_is_stored_key Sample.live Sample.log_request Sample.db0
                     eq_refl) _ [("x-api-key", "a guess")]).
    discriminate.
  - exact (proj1 (@log_gate_is_stored_key Sample.live Sample.log_request
                    Sample.unconfigured eq_refl) eq_refl).
Defined.

(** * Further properties of the controllers *)

Section MoreProperties.

Context {env : Collaborators}.

(** ** Stores that only grow, within one tenant *)

Lemma appended_refl {A} (churchOf : A -> string) c l : appended churchOf c l l.
Proof. exists []. split; [now rewrite app_nil_r | constructor]. Qed.

Lemma appended_trans {A} (churchOf : A -> string) c l1 l2 l3 :
  appended churchOf c l1 l2 -> appended churchOf c l2 l3 -> appended churchOf c l1 l3.
Proof.
  intros (a1 & -> & H1) (a2 & -> & H2). exists (a1 ++ a2).
  split; [now rewrite app_assoc | apply Forall_app; now split].
Qed.

Lemma appended_one {A} (churchOf : A -> string) c l r :
  churchOf r = c -> appended churchOf c l (l ++ [r]).
Proof. intros H. exists [r]. split; [reflexivity | now constructor]. Qed.

Lemma confined_refl c db : confined c db db.
Proof. unfold confined. repeat split; apply appended_refl. Qed.

Lemma confined_trans c db1 db2 db3 :
  confined c db1 db2 -> confined c db2 db3 -> confined c db1 db3.
Proof.
  unfold confined.
  intros (G1 & C1 & S1 & F1 & E1 & B1 & D1 & A1) (G2 & C2 & S2 & F2 & E2 & B2 & D2 & A2).
  repeat split; try congruence; eapply appended_trans; eassumption.
Qed.

Lemma bind_confined {A B} c (m : Task A) (k : A -> Task B) db :
  confined c db (snd (m db)) ->
  (forall a db1, m db = (Returned a, db1) -> confined c db1 (snd (k a db1))) ->
  confined c db (snd (bind m k db)).
Proof.
  unfold bind. destruct (m db) as [[a|e] db1]; simpl; intros H1 H2.
  - eapply confined_trans; [exact H1 | now apply H2].
  - exact H1.
Qed.

Lemma promise_all_confined {A} c (ps : list (Task A)) :
  Forall (fun p => forall db, confined c db (snd (p db))) ps ->
  forall db, confined c db (snd (promise_all ps db)).
Proof.
  induction 1 as [|p ps Hp _ IH]; intros db; simpl; [apply confined_refl|].
  specialize (Hp db). destruct (p db) as [o db1].
  specialize (IH db1). destruct (promise_all ps db1) as [os db2].
  simpl in *. eapply confined_trans; eassumption.
Qed.

Lemma repo_confined {A} c call (m : Task A) db :
  confined c db (snd (m db)) -> confined c db (snd (repo call m db)).
Proof. unfold repo. destruct (failing call); [intros _; apply confined_refl | auto]. Qed.

Lemma eventLog_create_confined c e db :
  el_churchId e = c -> confined c db (snd (eventLog_create e db)).
Proof.
  intros H. apply repo_confined. unfold confined. simpl.
  repeat split; try apply appended_refl. now apply appended_one.
Qed.

Lemma getOrCreateCurrent_confined c db :
  confined c db (snd (donationBatch_getOrCreateCurrent c db)).
Proof.
  apply repo_confined. destruct (current_batch c db); [apply confined_refl|].
  unfold confined. simpl. repeat split; try apply appended_refl.
  now apply appended_one.
Qed.

Lemma donation_save_church d db donation db' :
  donation_save d db = (Returned donation, db') ->
  d_churchId donation = d_churchId d.
Proof.
  unfold donation_save, repo, save_row, throw.
  destruct (failing DonationSave); [discriminate|].
  destruct (Js.truthy (d_id d)); intros H; inversion H; reflexivity.
Qed.

Lemma donation_save_confined d db :
  Js.truthy (d_id d) = false ->
  confined (d_churchId d) db (snd (donation_save d db)).
Proof.
  intros H. apply repo_confined. unfold save_row. rewrite H.
  unfold confined. simpl. repeat split; try apply appended_refl.
  now apply appended_one.
Qed.

Lemma fundDonation_save_confined f db :
  fd_id f = None ->
  confined (fd_churchId f) db (snd (fundDonation_save f db)).
Proof.
  intros H. apply repo_confined. unfold save_row. rewrite H.
  unfold confined. simpl. repeat split; try apply appended_refl.
  now apply appended_one.
Qed.

Lemma logDonation_confined d fs db :
  Js.truthy (d_id d) = false ->
  confined (d_churchId d) db (snd (logDonation d fs db)).
Proof.
  intros Hnew. unfold logDonation.
  apply bind_confined; [apply getOrCreateCurrent_confined|].
  intros batch db1 _. cbv zeta.
  apply bind_confined; [now apply (donation_save_confined (set_d_batchId _ d))|].
  intros donation db2 Hsaved. apply donation_save_church in Hsaved. simpl in Hsaved.
  apply promise_all_confined. apply Forall_forall. intros p Hp.
  apply in_map_iff in Hp. destruct Hp as (f & <- & _). intros db3.
  rewrite <- Hsaved.
  now apply (fundDonation_save_confined (fundDonationOf donation f)).
Qed.

Lemma reading_confined {A} c call (f : DB -> A) db :
  confined c db (snd (repo call (fun db => (Returned (f db), db)) db)).
Proof. apply repo_confined, confined_refl. Qed.

Lemma init_logEvent_confined c ev db :
  confined c db (snd (init_logEvent c ev db)).
Proof.
  unfold init_logEvent. apply bind_confined; [apply reading_confined|].
  intros [e|] db1 _; [apply confined_refl|].
  apply bind_confined; [apply confined_refl|].
  intros m db2 _. now apply eventLog_create_confined.
Qed.

Lemma fundsOf_confined c d db : confined c db (snd (fundsOf c d db)).
Proof.
  unfold fundsOf. destruct (metadata d) as [md|]; [|apply confined_refl].
  destruct (Js.truthy (funds md)); [apply confined_refl|].
  apply bind_confined; [apply reading_confined|].
  intros rows db1 _. apply confined_refl.
Qed.

Lemma init_logDonation_confined c ev method methodDetails db :
  confined c db (snd (init_logDonation c ev method methodDetails db)).
Proof.
  unfold init_logDonation.
  destruct (isDonationEvent (ev_type ev)); [|apply confined_refl].
  apply bind_confined; [apply reading_confined|].
  intros cust db1 _.
  apply bind_confined; [destruct cust; apply confined_refl|].
  intros personId db2 _. cbv zeta.
  apply bind_confined; [apply fundsOf_confined|].
  intros fl db3 _.
  apply bind_confined; [|intros; apply confined_refl].
  now apply (logDonation_confined (donationOf c (ev_data ev) personId method methodDetails)).
Qed.

Lemma init_event_confined c secretKey ev db :
  confined c db (snd (init_event c secretKey ev db)).
Proof.
  unfold init_event.
  destruct ((ev_type ev =? "charge.succeeded") && subscriptionEvent (ev_data ev));
    [apply confined_refl|].
  apply bind_confined; [apply confined_refl|]. intros pmd db1 _.
  apply bind_confined; [apply confined_refl|]. intros details db2 _. cbv zeta.
  apply bind_confined; [apply init_logEvent_confined|]. intros _ db3 _.
  apply bind_confined; [apply init_logDonation_confined|]. intros _ db4 _.
  apply confined_refl.
Qed.

(** X1.  Whatever a webhook request carries and however it ends, the
    closure removes and changes nothing: the credentials, customers and
    subscriptions stay as they are, and every row it adds to the event
    log, the batches, the donations and the fund allocations is a row of
    the tenant named in the query. *)
Theorem init_confined req db c :
  query_churchId req = Some c ->
  confined c db (snd (init req db)).
Proof.
  intros Hq. unfold init. rewrite Hq.
  apply bind_confined; [apply confined_refl|]. intros c' db1 E.
  inversion E; subst c' db1. clear E.
  apply bind_confined; [apply reading_confined|].
  intros [|g rest] db1 _; [apply confined_refl|].
  destruct (decrypt (g_privateKey g) =? EmptyString); [apply confined_refl|].
  apply bind_confined; [destruct (header_stripe_signature req); apply confined_refl|].
  intros sig db2 _.
  apply bind_confined; [apply confined_refl|]. intros ev db3 _.
  apply init_event_confined.
Qed.

(** ** The event log keeps one entry per event *)

Lemma bind_read {A B} (Q : DB -> Prop) (m : Task A) (k : A -> Task B) db :
  snd (m db) = db -> Q db -> (forall a, Q (snd (k a db))) -> Q (snd (bind m k db)).
Proof.
  unfold bind. destruct (m db) as [[a|e] db1]; simpl; intros ->; auto.
Qed.

Lemma snd_bind {A B} (m : Task A) (k : A -> Task B) db :
  snd (bind m k db)
  = match m db with
    | (Returned a, db1) => snd (k a db1)
    | (Thrown _, db1) => db1
    end.
Proof. unfold bind. destruct (m db) as [[a|e] db1]; reflexivity. Qed.

Lemma repo_read_snd {A} call (f : DB -> A) db :
  snd (repo call (fun db => (Returned (f db), db)) db) = db.
Proof. unfold repo. destruct (failing call); reflexivity. Qed.

Lemma init_logEvent_effect c ev db :
  snd (init_logEvent c ev db) = db \/
  exists m,
    logged_event c (ev_id ev) db = None /\
    snd (init_logEvent c ev db)
    = update_eventLogs (fun l => l ++ [eventLogOf c ev m]) db.
Proof.
  unfold init_logEvent, bind, eventLog_load, eventLog_create, repo, lift.
  destruct (failing EventLogLoad); [now left|].
  destruct (logged_event c (ev_id ev) db) eqn:E; [now left|].
  destruct (eventMessage (ev_data ev)) as [m|e]; [|now left].
  destruct (failing EventLogCreate); [now left|].
  right. now exists m.
Qed.

Lemma init_event_eventLogs c secretKey ev db :
  eventLogs (snd (init_event c secretKey ev db)) = eventLogs db \/
  exists m,
    logged_event c (ev_id ev) db = None /\
    eventLogs (snd (init_event c secretKey ev db))
    = eventLogs db ++ [eventLogOf c ev m].
Proof.
  unfold init_event.
  destruct ((ev_type ev =? "charge.succeeded") && subscriptionEvent (ev_data ev));
    [now left|].
  apply (bind_read (fun db' => eventLogs db' = eventLogs db \/
                               exists m, logged_event c (ev_id ev) db = None /\
                                         eventLogs db'
                                         = eventLogs db ++ [eventLogOf c ev m]));
    [reflexivity | now left |]. intros pmd.
  apply (bind_read (fun db' => eventLogs db' = eventLogs db \/
                               exists m, logged_event c (ev_id ev) db = None /\
                                         eventLogs db'
                                         = eventLogs db ++ [eventLogOf c ev m]));
    [reflexivity | now left |]. intros details. cbv zeta.
  rewrite snd_bind.
  pose proof (init_logEvent_effect c ev db) as Heff.
  destruct (init_logEvent c ev db) as [[[]|e] db1]; simpl in Heff.
  - rewrite snd_bind_ret.
    destruct Heff as [-> | (m & Hnone & ->)].
    + left. apply init_logDonation_keeps_eventLogs.
    + right. exists m. split; [exact Hnone|].
      now rewrite init_logDonation_keeps_eventLogs.
  - destruct Heff as [-> | (m & Hnone & ->)]; [now left|]. right. now exists m.
Qed.

Lemma init_eventLogs req db :
  eventLogs (snd (init req db)) = eventLogs db \/
  exists c ev m,
    logged_event c (ev_id ev) db = None /\
    eventLogs (snd (init req db)) = eventLogs db ++ [eventLogOf c ev m].
Proof.
  set (Q := fun db' => eventLogs db' = eventLogs db \/
                       exists c ev m, logged_event c (ev_id ev) db = None /\
                                      eventLogs db'
                                      = eventLogs db ++ [eventLogOf c ev m]).
  change (Q (snd (init req db))).
  assert (Q0 : Q db) by now left.
  unfold init.
  apply bind_read; [destruct (query_churchId req); reflexivity | exact Q0 |].
  intros c.
  apply bind_read; [apply repo_read_snd | exact Q0 |].
  intros [|g rest]; [exact Q0|].
  destruct (decrypt (g_privateKey g) =? EmptyString); [exact Q0|].
  apply bind_read; [destruct (header_stripe_signature req); reflexivity | exact Q0 |].
  intros sig.
  apply bind_read; [reflexivity | exact Q0 |].
  intros ev. unfold Q.
  destruct (init_event_eventLogs c (decrypt (g_privateKey g)) ev db)
    as [H | (m & Hnone & H)]; [now left|].
  right. now exists c, ev, m.
Qed.

Lemma not_logged_not_in c id db :
  logged_event c id db = None ->
  ~ In (c, id) (map (fun e => (el_churchId e, el_id e)) (eventLogs db)).
Proof.
  intros Hnone Hin. apply in_map_iff in Hin. destruct Hin as (e & Hkey & Hin).
  unfold logged_event in Hnone.
  pose proof (find_none _ _ Hnone e Hin) as Hf. cbv beta in Hf.
  inversion Hkey. subst. now rewrite !String.eqb_refl in Hf.
Qed.

(** X2.  If no two entries of the event log share tenant and event id,
    then after any webhook request, however it ends, that is still so:
    the closure never adds a second entry for an event already logged. *)
Theorem init_keeps_events_unique req db :
  unique_events db -> unique_events (snd (init req db)).
Proof.
  unfold unique_events. intros Huniq.
  destruct (init_eventLogs req db) as [-> | (c & ev & m & Hnone & ->)];
    [exact Huniq|].
  rewrite map_app. apply NoDup_app; [exact Huniq | |].
  - constructor; [intros [] | constructor].
  - intros key Hin [<- | []]. simpl in Hin.
    now apply (not_logged_not_in c (ev_id ev) db Hnone).
Qed.

(** ** Requests that fail *)

(** X3.  A webhook request without the churchId query parameter fails with
    a TypeError before anything is read; one of a tenant with credentials
    but without the stripe-signature header fails with a TypeError before
    the provider is asked.  Neither writes anything. *)
Theorem init_missing_parameter req db :
  (query_churchId req = None -> init req db = (Thrown TypeError, db)) /\
  (forall c g rest,
      query_churchId req = Some c ->
      failing GatewayLoadAll = false ->
      tenant_gateways c db = g :: rest ->
      decrypt (g_privateKey g) <> EmptyString ->
      header_stripe_signature req = None ->
      init req db = (Thrown TypeError, db)).
Proof.
  split.
  - intros Hq. unfold init. now rewrite Hq.
  - intros c g rest Hq Hf Hg Hk Hs. unfold init. rewrite Hq. cbn [toString].
    erewrite bind_returned by reflexivity.
    erewrite bind_returned by (now apply gateway_loadAll_returns).
    rewrite Hg. apply String.eqb_neq in Hk. rewrite Hk, Hs. reflexivity.
Qed.

(** X4.  A verified event that is not a suppressed subscription charge
    and whose handling fails before the log is written leaves no trace:
    when the charge lookup is rejected, when the payment details cannot be
    read, or when the message of a not yet logged event cannot be built,
    the closure fails with that error and the store is unchanged. *)
Theorem init_failure_before_log req db c secretKey ev e :
  verified req db c secretKey ev ->
  (ev_type ev =? "charge.succeeded") && subscriptionEvent (ev_data ev) = false ->
  (paymentMethodDetailsOf secretKey (ev_data ev) = Thrown e ->
   init req db = (Thrown e, db)) /\
  (forall pmd,
      paymentMethodDetailsOf secretKey (ev_data ev) = Returned pmd ->
      extractPaymentDetails pmd = Thrown e ->
      init req db = (Thrown e, db)) /\
  (forall pmd details,
      paymentMethodDetailsOf secretKey (ev_data ev) = Returned pmd ->
      extractPaymentDetails pmd = Returned details ->
      failing EventLogLoad = false ->
      logged_event c (ev_id ev) db = None ->
      eventMessage (ev_data ev) = Thrown e ->
      init req db = (Thrown e, db)).
Proof.
  intros Hv Hs. rewrite (init_verified _ _ _ _ _ Hv). repeat split.
  - intros Hp. unfold init_event. rewrite Hs.
    apply bind_thrown. unfold lift. now rewrite Hp.
  - intros pmd Hp He. unfold init_event. rewrite Hs.
    erewrite bind_returned by (unfold lift; rewrite Hp; reflexivity).
    apply bind_thrown. unfold lift. now rewrite He.
  - intros pmd details Hp He Hl Hnone Hm.
    rewrite (init_event_blocks _ _ _ _ _ _ Hs Hp He).
    apply bind_thrown. unfold init_logEvent.
    erewrite bind_returned by (now apply eventLog_load_returns).
    rewrite Hnone. apply bind_thrown. unfold lift. now rewrite Hm.
Qed.

(** X5.  A verified, not yet logged charge.succeeded or invoice.paid event
    whose handling fails between the log write and [logDonation] leaves
    exactly its EventLogEntry: when the customer is unknown, when the
    event has no metadata object, or when metadata.funds does not parse,
    the closure fails and no batch, Donation or FundDonation is written. *)
Theorem init_failure_after_log req db c secretKey ev pmd details message :
  verified req db c secretKey ev ->
  (ev_type ev =? "charge.succeeded") && subscriptionEvent (ev_data ev) = false ->
  isDonationEvent (ev_type ev) = true ->
  paymentMethodDetailsOf secretKey (ev_data ev) = Returned pmd ->
  extractPaymentDetails pmd = Returned details ->
  failing EventLogLoad = false ->
  failing EventLogCreate = false ->
  logged_event c (ev_id ev) db = None ->
  eventMessage (ev_data ev) = Returned message ->
  failing CustomerLoad = false ->
  let logged := update_eventLogs (fun l => l ++ [eventLogOf c ev message]) db in
  (stored_customer c (customer (ev_data ev)) db = None ->
   init req db = (Thrown TypeError, logged)) /\
  (forall cust,
      stored_customer c (customer (ev_data ev)) db = Some cust ->
      metadata (ev_data ev) = None ->
      init req db = (Thrown TypeError, logged)) /\
  (forall cust md e,
      stored_customer c (customer (ev_data ev)) db = Some cust ->
      metadata (ev_data ev) = Some md ->
      Js.truthy (funds md) = true ->
      JSON_parse (Js.to_str (funds md)) = Thrown e ->
      init req db = (Thrown e, logged)).
Proof.
  intros Hv Hs Ht Hp He Hl Hc Hnone Hm Hcl logged.
  rewrite (init_verified _ _ _ _ _ Hv).
  rewrite (init_event_blocks _ _ _ _ _ _ Hs Hp He).
  erewrite bind_returned by (eapply init_logEvent_new; eassumption).
  fold logged.
  assert (Hcust : forall x, stored_customer c x logged = stored_customer c x db)
    by reflexivity.
  repeat split.
  - intros Hnocust. apply bind_thrown. unfold init_logDonation. rewrite Ht.
    erewrite bind_returned by (now apply customer_load_returns).
    rewrite Hcust, Hnocust. reflexivity.
  - intros cust Hfound Hmeta. apply bind_thrown. unfold init_logDonation. rewrite Ht.
    erewrite bind_returned by (now apply customer_load_returns).
    rewrite Hcust, Hfound. erewrite bind_returned by reflexivity. cbv zeta.
    apply bind_thrown. unfold fundsOf. now rewrite Hmeta.
  - intros cust md e Hfound Hmeta Htruthy Hparse.
    apply bind_thrown. unfold init_logDonation. rewrite Ht.
    erewrite bind_returned by (now apply customer_load_returns).
    rewrite Hcust, Hfound. erewrite bind_returned by reflexivity. cbv zeta.
    apply bind_thrown. unfold fundsOf. rewrite Hmeta, Htruthy.
    unfold lift. now rewrite Hparse.
Qed.

(** ** [logDonation] when the storage layer refuses calls *)

Lemma fundDonation_saves_partial rows db :
  Forall (fun r => fd_id r = None) rows ->
  promise_all (map fundDonation_save rows) db
  = (if forallb (fun r => negb (failing (FundDonationSave (fd_fundId r)))) rows
     then Returned (with_ids genId set_fd_id (nextId db) rows)
     else Thrown PersistenceFailure,
     update_fundDonations
       (fun l => l ++ with_ids genId set_fd_id (nextId db)
                        (filter (fun r => negb (failing (FundDonationSave (fd_fundId r))))
                                rows))
       (nextId db
        + length (filter (fun r => negb (failing (FundDonationSave (fd_fundId r)))) rows))
       db).
Proof.
  intros Hnew. revert db.
  induction Hnew as [|r rows Hr _ IH]; intros db.
  - destruct db. unfold update_fundDonations. simpl.
    now rewrite app_nil_r, Nat.add_0_r.
  - cbn [map promise_all forallb filter]. unfold fundDonation_save at 1, repo.
    destruct (failing (FundDonationSave (fd_fundId r))); cbn [negb andb].
    + unfold throw at 1. rewrite IH.
      destruct (forallb _ rows); reflexivity.
    + rewrite save_row_new by exact Hr. rewrite IH.
      unfold update_fundDonations. simpl. rewrite <- app_assoc. simpl.
      destruct (forallb _ rows); do 2 f_equal; lia.
Qed.

Lemma accepted_rows donation fs :
  filter (fun r => negb (failing (FundDonationSave (fd_fundId r))))
         (map (fundDonationOf donation) fs)
  = map (fundDonationOf donation) (filter accepted fs).
Proof.
  induction fs as [|f fs IH]; [reflexivity|]. simpl. unfold accepted at 1.
  destruct (negb (failing (FundDonationSave (fund_id f)))); simpl; now rewrite IH.
Qed.

Lemma accepted_all donation fs :
  forallb (fun r => negb (failing (FundDonationSave (fd_fundId r))))
          (map (fundDonationOf donation) fs)
  = forallb accepted fs.
Proof. induction fs as [|f fs IH]; [reflexivity|]. simpl. now rewrite IH. Qed.

(** X6.  When the batch and the donation are stored, [logDonation] tries
    every fund allocation: the donation stays stored, the allocations the
    storage layer accepts are stored in order, and the call returns them
    all only if none was refused; otherwise it fails with the refusal and
    nothing is taken back. *)
Theorem logDonation_partial_writes d fs db :
  failing DonationBatchGetOrCreateCurrent = false ->
  failing DonationSave = false ->
  exists donation n,
    In donation (donations (snd (logDonation d fs db))) /\
    fst (logDonation d fs db)
    = (if forallb accepted fs
       then Returned (with_ids genId set_fd_id n (map (fundDonationOf donation) fs))
       else Thrown PersistenceFailure) /\
    fundDonations (snd (logDonation d fs db))
    = fundDonations db
      ++ with_ids genId set_fd_id n (map (fundDonationOf donation) (filter accepted fs)).
Proof.
  intros Hb Hd.
  destruct (getOrCreateCurrent_returns (d_churchId d) db Hb)
    as (batch & db1 & Eb & _ & _ & _ & _ & Hf1 & _).
  destruct (donation_save_returns (set_d_batchId (Some (b_id batch)) d) db1 Hd)
    as (donation & db2 & i & Ed & _ & Hin & _ & Hf2 & _).
  exists donation, (nextId db2). unfold logDonation.
  erewrite bind_returned by exact Eb. cbv zeta.
  erewrite bind_returned by exact Ed.
  rewrite <- (map_map (fundDonationOf donation) fundDonation_save).
  rewrite fundDonation_saves_partial.
  2:{ apply Forall_forall. intros r Hr. apply in_map_iff in Hr.
      destruct Hr as (f & <- & _). reflexivity. }
  rewrite accepted_rows, accepted_all. simpl.
  repeat split; [exact Hin | congruence].
Qed.

(** X7.  [logDonation] writes in order and stops at the first refusal
    before the allocations: when [getOrCreateCurrent] is refused nothing
    is written, and when the donation save is refused no Donation and no
    FundDonation is written, so a FundDonation is never stored without
    its Donation. *)
Theorem logDonation_refused d fs db :
  (failing DonationBatchGetOrCreateCurrent = true ->
   logDonation d fs db = (Thrown PersistenceFailure, db)) /\
  (failing DonationBatchGetOrCreateCurrent = false ->
   failing DonationSave = true ->
   fst (logDonation d fs db) = Thrown PersistenceFailure /\
   donations (snd (logDonation d fs db)) = donations db /\
   fundDonations (snd (logDonation d fs db)) = fundDonations db).
Proof.
  split.
  - intros Hb. unfold logDonation, bind, donationBatch_getOrCreateCurrent, repo.
    now rewrite Hb.
  - intros Hb Hd.
    destruct (getOrCreateCurrent_returns (d_churchId d) db Hb)
      as (batch & db1 & Eb & _ & _ & _ & Hd1 & Hf1 & _).
    unfold logDonation. erewrite bind_returned by exact Eb. cbv zeta.
    erewrite bind_thrown by (unfold donation_save, repo; rewrite Hd; reflexivity).
    simpl. repeat split; assumption.
Qed.

(** ** POST /donate/subscribe *)

Ltac subscribe_start Hl Hg Hk :=
  unfold subscribe;
  erewrite bind_returned by (now apply loadPrivateKey_returns);
  unfold stored_key; rewrite Hg, Hk;
  erewrite bind_returned by (now apply gateway_loadAll_returns);
  rewrite Hg; erewrite bind_returned by reflexivity; cbv zeta.

(** X8.  [subscribe] writes nothing when it stops before the subscription
    is saved: without a stored key it answers 401; when the provider
    rejects the subscription, when the request names no person (the
    provider has then already created the subscription), or when the
    subscription save is refused, it fails and the store is unchanged.  A
    request without a fund list stops after that save: the closure fails
    with a TypeError, the Subscription row is stored and no
    SubscriptionFund is. *)
Theorem subscribe_refused c body db :
  failing GatewayLoadAll = false ->
  (stored_key c db = EmptyString -> subscribe c body db = (Returned (Json 401), db)) /\
  (forall g rest,
      tenant_gateways c db = g :: rest ->
      decrypt (g_privateKey g) <> EmptyString ->
      (forall e,
          createSubscription (decrypt (g_privateKey g))
                             (subscribePaymentData body (g_productId g)) = Thrown e ->
          subscribe c body db = (Thrown e, db)) /\
      (forall ss,
          createSubscription (decrypt (g_privateKey g))
                             (subscribePaymentData body (g_productId g)) = Returned ss ->
          (sb_person body = None -> subscribe c body db = (Thrown TypeError, db)) /\
          (forall p,
              sb_person body = Some p ->
              (failing SubscriptionSave = true ->
               subscribe c body db = (Thrown PersistenceFailure, db)) /\
              (failing SubscriptionSave = false ->
               sb_funds body = None ->
               subscribe c body db
               = (Thrown TypeError,
                  update_subscriptions
                    (fun l => filter (fun r => negb ((s_id r =? sub_id ss)
                                                     && (s_churchId r =? c))) l
                              ++ [{| s_id := sub_id ss; s_churchId := c;
                                     s_personId := p_id p;
                                     s_customerId := sb_customerId body |}])
                    db))))).
Proof.
  intros Hl. split.
  - intros Hk. unfold subscribe.
    erewrite bind_returned by (now apply loadPrivateKey_returns).
    now rewrite Hk.
  - intros g rest Hg Hk. apply String.eqb_neq in Hk. split.
    + intros e Hc. subscribe_start Hl Hg Hk.
      apply bind_thrown. unfold lift. now rewrite Hc.
    + intros ss Hc. split.
      * intros Hp. subscribe_start Hl Hg Hk.
        erewrite bind_returned by (unfold lift; rewrite Hc; reflexivity).
        now rewrite Hp.
      * intros p Hp. split.
        -- intros Hs. subscribe_start Hl Hg Hk.
           erewrite bind_returned by (unfold lift; rewrite Hc; reflexivity).
           rewrite Hp. erewrite bind_returned by reflexivity. cbv zeta.
           apply bind_thrown. unfold subscription_save, repo. now rewrite Hs.
        -- intros Hs Hfs. subscribe_start Hl Hg Hk.
           erewrite bind_returned by (unfold lift; rewrite Hc; reflexivity).
           rewrite Hp. erewrite bind_returned by reflexivity. cbv zeta.
           erewrite bind_returned
             by (unfold subscription_save; rewrite repo_ok by exact Hs; reflexivity).
           now rewrite Hfs.
Qed.

(** X9.  A [subscribe] whose calls are all accepted stores the
    subscription under the provider's id with the user's tenant, the
    person's id and the customer id, stores one SubscriptionFund per fund
    of the request with that subscription id, fund id and amount, returns
    exactly those rows, and writes no Donation or FundDonation. *)
Theorem subscribe_contract c body db g rest ss p fs :
  failing GatewayLoadAll = false ->
  failing SubscriptionSave = false ->
  (forall f, failing (SubscriptionFundSave f) = false) ->
  tenant_gateways c db = g :: rest ->
  decrypt (g_privateKey g) <> EmptyString ->
  createSubscription (decrypt (g_privateKey g))
                     (subscribePaymentData body (g_productId g)) = Returned ss ->
  sb_person body = Some p ->
  sb_funds body = Some fs ->
  exists rows,
    fst (subscribe c body db) = Returned (Rows rows) /\
    In {| s_id := sub_id ss; s_churchId := c; s_personId := p_id p;
          s_customerId := sb_customerId body |}
       (subscriptions (snd (subscribe c body db))) /\
    Forall2
      (fun fund row =>
         sf_churchId row = c /\ sf_subscriptionId row = sub_id ss /\
         sf_fundId row = fund_id fund /\ sf_amount row = fund_amount fund /\
         exists j, sf_id row = Some j)
      fs rows /\
    subscriptionFunds (snd (subscribe c body db)) = subscriptionFunds db ++ rows /\
    donations (snd (subscribe c body db)) = donations db /\
    fundDonations (snd (subscribe c body db)) = fundDonations db.
Proof.
  intros Hl Hs Hf Hg Hk Hc Hp Hfs.
  exists (with_ids genId set_sf_id (nextId db)
            (map (subscriptionFundOf c (sub_id ss)) fs)).
  assert (E : subscribe c body db
              = (Returned (Rows (with_ids genId set_sf_id (nextId db)
                                   (map (subscriptionFundOf c (sub_id ss)) fs))),
                 update_subscriptionFunds
                   (fun l => l ++ with_ids genId set_sf_id (nextId db)
                                    (map (subscriptionFundOf c (sub_id ss)) fs))
                   (nextId db + length fs)
                   (update_subscriptions
                      (fun l => filter (fun r => negb ((s_id r =? sub_id ss)
                                                       && (s_churchId r =? c))) l
                                ++ [{| s_id := sub_id ss; s_churchId := c;
                                       s_personId := p_id p;
                                       s_customerId := sb_customerId body |}])
                      db))).
  { unfold subscribe.
    erewrite bind_returned by (now apply loadPrivateKey_returns).
    unfold stored_key. rewrite Hg.
    apply String.eqb_neq in Hk. rewrite Hk.
    erewrite bind_returned by (now apply gateway_loadAll_returns).
    rewrite Hg. erewrite bind_returned by reflexivity. cbv zeta.
    erewrite bind_returned by (unfold lift; rewrite Hc; reflexivity).
    rewrite Hp. erewrite bind_returned by reflexivity.
    erewrite bind_returned
      by (unfold subscription_save; rewrite repo_ok by exact Hs; reflexivity).
    rewrite Hfs. erewrite bind_returned by reflexivity.
    cbn [s_id].
    rewrite <- (map_map (subscriptionFundOf c (sub_id ss)) subscriptionFund_save).
    erewrite bind_returned.
    2:{ apply subscriptionFund_saves_return; [exact Hf|].
        apply Forall_forall. intros r Hr. apply in_map_iff in Hr.
        destruct Hr as (f & <- & _). reflexivity. }
    cbn [nextId update_subscriptions]. now rewrite length_map. }
  rewrite E. cbn [fst snd]. split; [reflexivity|]. split.
  { simpl. apply in_or_app. right. now left. }
  split; [apply subscription_rows_allocated | repeat split].
Qed.

(** ** What the webhook records for a donation *)

Lemma init_donation_runs req db c secretKey ev pmd details message cust fl :
  verified req db c secretKey ev ->
  (ev_type ev =? "charge.succeeded") && subscriptionEvent (ev_data ev) = false ->
  isDonationEvent (ev_type ev) = true ->
  paymentMethodDetailsOf secretKey (ev_data ev) = Returned pmd ->
  extractPaymentDetails pmd = Returned details ->
  failing EventLogLoad = false ->
  failing EventLogCreate = false ->
  eventMessage (ev_data ev) = Returned message ->
  failing CustomerLoad = false ->
  stored_customer c (customer (ev_data ev)) db = Some cust ->
  fundsOf c (ev_data ev) db = (Returned fl, db) ->
  failing DonationBatchGetOrCreateCurrent = false ->
  failing DonationSave = false ->
  (forall f, failing (FundDonationSave f) = false) ->
  exists batch i rows,
    fst (init req db) = Returned Undefined /\
    b_churchId batch = c /\ b_current batch = true /\
    donations (snd (init req db))
    = donations db
      ++ [set_d_id i (set_d_batchId (Some (b_id batch))
                        (donationOf c (ev_data ev) (c_personId cust)
                                    (fst details) (snd details)))] /\
    fundDonations (snd (init req db)) = fundDonations db ++ rows /\
    Forall2
      (fun fund row =>
         fd_donationId row = Some i /\ fd_fundId row = fund_id fund /\
         fd_amount row = fund_amount fund /\ fd_churchId row = c /\
         exists j, fd_id row = Some j)
      fl rows /\
    current_batch c (snd (init req db)) = Some batch /\
    (current_batch c db = Some batch /\
     donationBatches (snd (init req db)) = donationBatches db
     \/
     current_batch c db = None /\
     donationBatches (snd (init req db)) = donationBatches db ++ [batch]).
Proof.
  intros Hv Hs Ht Hp He Hl Hc Hm Hcl Hcust Hfl Hb Hd Hf.
  rewrite (init_verified _ _ _ _ _ Hv).
  rewrite (init_event_blocks _ _ _ _ _ _ Hs Hp He).
  destruct (init_logEvent_returns c ev db message Hl Hc Hm)
    as (db2 & E2 & Hc2 & Hs2 & Hf2).
  assert (Hd2 : donations db2 = donations db).
  { pose proof (init_logEvent_keeps donations c ev (fun _ _ => eq_refl) db) as K.
    now rewrite E2 in K. }
  assert (Hb2 : donationBatches db2 = donationBatches db).
  { pose proof (init_logEvent_keeps donationBatches c ev (fun _ _ => eq_refl) db) as K.
    now rewrite E2 in K. }
  erewrite bind_returned by exact E2.
  assert (Hfl2 : fundsOf c (ev_data ev) db2 = (Returned fl, db2))
    by (now apply (fundsOf_reads_subscriptionFunds _ _ db)).
  assert (Hcust2 : stored_customer c (customer (ev_data ev)) db2 = Some cust)
    by (unfold stored_customer in *; now rewrite Hc2).
  set (d := donationOf c (ev_data ev) (c_personId cust) (fst details) (snd details)).
  destruct (logDonation_stores d fl db2 Hb Hd Hf)
    as (batch & donation & i & rows & Eb & Hdon & _ & Er & Hall & Hfd & Hcur & Hwas
        & _ & _ & _ & Happ & _).
  destruct (getOrCreateCurrent_returns (d_churchId d) db2 Hb)
    as (batch' & db' & Eb' & _ & Hbc & Hbcur & _).
  rewrite Eb' in Eb. simpl in Eb. inversion Eb; subst batch'.
  destruct (logDonation d fl db2) as [o db3] eqn:E3. simpl in Er. subst o.
  erewrite bind_returned by (eapply init_logDonation_returns; eauto).
  exists batch, i, rows. cbn [fst snd] in *.
  change (d_churchId d) with c in *.
  unfold current_batch in *. rewrite Hb2 in Hwas. unfold ret. cbn [fst snd].
  repeat split; try assumption.
  - rewrite (Happ eq_refl), Hd2. now subst donation.
  - congruence.
Qed.

(** X10.  A verified charge.succeeded or invoice.paid event that is not a
    suppressed subscription charge and whose steps all succeed is answered
    without a value and adds one Donation: of the tenant, with batchId the
    id of the batch that is the tenant's current one in the store
    afterwards (the one the tenant had, the batches being left as they
    were, or a new one appended to the batches), for the person of the
    stored customer, with the method and last4 read from the payment
    details, the amount in major units and the date [created * 1000]; and
    one FundDonation per fund, each referencing that donation. *)
Theorem init_records_donation req db c secretKey ev pmd details message cust fl :
  verified req db c secretKey ev ->
  (ev_type ev =? "charge.succeeded") && subscriptionEvent (ev_data ev) = false ->
  isDonationEvent (ev_type ev) = true ->
  paymentMethodDetailsOf secretKey (ev_data ev) = Returned pmd ->
  extractPaymentDetails pmd = Returned details ->
  failing EventLogLoad = false ->
  failing EventLogCreate = false ->
  eventMessage (ev_data ev) = Returned message ->
  failing CustomerLoad = false ->
  stored_customer c (customer (ev_data ev)) db = Some cust ->
  fundsOf c (ev_data ev) db = (Returned fl, db) ->
  failing DonationBatchGetOrCreateCurrent = false ->
  failing DonationSave = false ->
  (forall f, failing (FundDonationSave f) = false) ->
  exists batch donation i rows,
    fst (init req db) = Returned Undefined /\
    b_churchId batch = c /\ b_current batch = true /\
    donations (snd (init req db)) = donations db ++ [donation] /\
    d_id donation = Some i /\
    d_churchId donation = c /\
    d_batchId donation = Some (b_id batch) /\
    d_personId donation = c_personId cust /\
    d_method donation = fst details /\
    d_methodDetails donation = snd details /\
    d_amount donation = donationAmount (ev_data ev) /\
    d_donationDate donation = Some (created (ev_data ev) * 1000)%Z /\
    fundDonations (snd (init req db)) = fundDonations db ++ rows /\
    Forall2
      (fun fund row =>
         fd_donationId row = Some i /\ fd_fundId row = fund_id fund /\
         fd_amount row = fund_amount fund /\ fd_churchId row = c /\
         exists j, fd_id row = Some j)
      fl rows /\
    current_batch c (snd (init req db)) = Some batch /\
    (current_batch c db = Some batch /\
     donationBatches (snd (init req db)) = donationBatches db
     \/
     current_batch c db = None /\
     donationBatches (snd (init req db)) = donationBatches db ++ [batch]).
Proof.
  intros Hv Hs Ht Hp He Hl Hc Hm Hcl Hcust Hfl Hb Hd Hf.
  destruct (init_donation_runs req db c secretKey ev pmd details message cust fl
              Hv Hs Ht Hp He Hl Hc Hm Hcl Hcust Hfl Hb Hd Hf)
    as (batch & i & rows & Hr & Hbc & Hbcur & Hdon & Hfd & Hall & Hcur & Hwas).
  eexists batch, _, i, rows.
  split; [exact Hr|]. split; [exact Hbc|]. split; [exact Hbcur|].
  split; [exact Hdon|]. simpl. repeat split; assumption.
Qed.

(** ** POST /donate/log on an accepting store *)

(** X11.  For a tenant with a stored key and a storage layer that accepts
    the calls, [/donate/log] stores the donation of the request with
    batchId set to the id of the batch that is the current one of the
    donation's tenant in the store afterwards (the one the tenant had, the
    batches being left as they were, or a new one appended to the
    batches) and its other fields as posted, under the id it has, or
    under a fresh one when it has none, and then as a new row; and
    exactly one FundDonation, for the fund and amount of the request's
    fundData, referencing that donation. *)
Theorem log_stores_donation_and_fund req db :
  failing GatewayLoadAll = false ->
  stored_key (d_churchId (body_donation req)) db <> EmptyString ->
  failing DonationBatchGetOrCreateCurrent = false ->
  failing DonationSave = false ->
  (forall f, failing (FundDonationSave f) = false) ->
  exists batch donation i row,
    fst (log req db) = Returned Undefined /\
    b_churchId batch = d_churchId (body_donation req) /\
    b_current batch = true /\
    current_batch (d_churchId (body_donation req)) (snd (log req db)) = Some batch /\
    (current_batch (d_churchId (body_donation req)) db = Some batch /\
     donationBatches (snd (log req db)) = donationBatches db
     \/
     current_batch (d_churchId (body_donation req)) db = None /\
     donationBatches (snd (log req db)) = donationBatches db ++ [batch]) /\
    donation = set_d_id i (set_d_batchId (Some (b_id batch)) (body_donation req)) /\
    In donation (donations (snd (log req db))) /\
    (Js.truthy (d_id (body_donation req)) = true ->
     d_id (body_donation req) = Some i) /\
    (Js.truthy (d_id (body_donation req)) = false ->
     donations (snd (log req db)) = donations db ++ [donation]) /\
    d_id donation = Some i /\
    d_batchId donation = Some (b_id batch) /\
    d_churchId donation = d_churchId (body_donation req) /\
    d_amount donation = d_amount (body_donation req) /\
    d_personId donation = d_personId (body_donation req) /\
    d_method donation = d_method (body_donation req) /\
    d_methodDetails donation = d_methodDetails (body_donation req) /\
    d_donationDate donation = d_donationDate (body_donation req) /\
    fundDonations (snd (log req db)) = fundDonations db ++ [row] /\
    fd_donationId row = Some i /\
    fd_fundId row = fund_id (body_fundData req) /\
    fd_amount row = fund_amount (body_fundData req) /\
    fd_churchId row = d_churchId (body_donation req).
Proof.
  intros Hg Hk Hb Hd Hf. rewrite log_accepted by assumption.
  destruct (logDonation_stores (body_donation req) [body_fundData req] db Hb Hd Hf)
    as (batch & donation & i & rows & Eb & Hdon & Hin & Er & Hall & Hfd & Hcur & Hwas
        & Hbatch & Hid & Hhas & Happ & Hfields).
  destruct (getOrCreateCurrent_returns (d_churchId (body_donation req)) db Hb)
    as (batch' & db1 & Eb' & _ & Hbc & Hbcur & _).
  rewrite Eb' in Eb. simpl in Eb. inversion Eb; subst batch'.
  inversion Hall as [|f row fs rows' Hrow Hrest]; subst fs rows f.
  inversion Hrest; subst rows'.
  destruct Hrow as (H1 & H2 & H3 & H4 & _).
  destruct Hfields as (F1 & F2 & F3 & F4 & F5 & F6).
  exists batch, donation, i, row. cbn [fst snd].
  repeat (split; [assumption || reflexivity|]). assumption.
Qed.

End MoreProperties.

Section ChargeProperties.

Context {env : Collaborators} {provider : ChargeCollaborators}.

(** ** POST /donate/charge *)

Lemma charge_metadata body :
  cp_metadata_funds (Donate.chargePaymentData body)
  = option_map JSON_stringify (cb_funds body).
Proof.
  unfold Donate.chargePaymentData.
  destruct (strict_eq (cb_type body) "card"), (strict_eq (cb_type body) "bank");
    reflexivity.
Qed.

(** X12.  [charge] never writes to the store.  Without a stored key it
    answers 401 and the provider is not asked; otherwise its outcome is
    the provider's: the result of [donate] on the payment data, or its
    rejection. *)
Theorem charge_outcome c body db :
  snd (Donate.charge c body db) = db /\
  (failing GatewayLoadAll = false ->
   (stored_key c db = EmptyString ->
    fst (Donate.charge c body db) = Returned (ChargeJson 401)) /\
   (stored_key c db <> EmptyString ->
    fst (Donate.charge c body db)
    = match donate (stored_key c db) (Donate.chargePaymentData body) with
      | Returned r => Returned (ChargeResult r)
      | Thrown e => Thrown e
      end)).
Proof.
  split.
  - unfold Donate.charge, loadPrivateKey, bind, gateway_loadAll, repo, lift.
    destruct (failing GatewayLoadAll); [reflexivity|]. simpl.
    destruct (_ =? EmptyString); [reflexivity|].
    destruct (donate _ _); reflexivity.
  - intros Hl. split; intros Hk; unfold Donate.charge;
      erewrite bind_returned by (now apply loadPrivateKey_returns).
    + now rewrite Hk.
    + apply String.eqb_neq in Hk. rewrite Hk. cbv zeta. unfold bind, lift.
      destruct (donate _ _); reflexivity.
Qed.

(** X13.  The payment data of a charge is in US dollars with the amount,
    customer and stringified funds of the request.  Type "card" makes it
    a confirmed off-session payment by payment method; type "bank" a
    payment from a source; any other type leaves both payment method and
    source out, and the request is built all the same. *)
Theorem charge_payment_shape body :
  let pd := Donate.chargePaymentData body in
  cp_currency pd = "usd" /\
  cp_amount pd = cb_amount body /\
  cp_customer pd = cb_customerId body /\
  cp_metadata_funds pd = option_map JSON_stringify (cb_funds body) /\
  (cb_type body = Some "card" ->
   cp_payment_method pd = cb_id body /\ cp_confirm pd = Some true /\
   cp_off_session pd = Some true /\ cp_source pd = None) /\
  (cb_type body = Some "bank" ->
   cp_source pd = cb_id body /\ cp_payment_method pd = None /\
   cp_confirm pd = None /\ cp_off_session pd = None) /\
  (cb_type body <> Some "card" -> cb_type body <> Some "bank" ->
   cp_payment_method pd = None /\ cp_source pd = None /\
   cp_confirm pd = None /\ cp_off_session pd = None).
Proof.
  cbv zeta. split; [|split; [|split; [|split; [apply charge_metadata|]]]].
  - unfold Donate.chargePaymentData.
    destruct (strict_eq (cb_type body) "card"), (strict_eq (cb_type body) "bank");
      reflexivity.
  - unfold Donate.chargePaymentData.
    destruct (strict_eq (cb_type body) "card"), (strict_eq (cb_type body) "bank");
      reflexivity.
  - unfold Donate.chargePaymentData.
    destruct (strict_eq (cb_type body) "card"), (strict_eq (cb_type body) "bank");
      reflexivity.
  - split; [|split].
    + intros Ht. unfold Donate.chargePaymentData. rewrite Ht. repeat split.
    + intros Ht. unfold Donate.chargePaymentData. rewrite Ht. repeat split.
    + intros Hcard Hbank. unfold Donate.chargePaymentData.
      assert (strict_eq (cb_type body) "card" = false) as ->.
      { destruct (cb_type body) as [t|]; [|reflexivity]. simpl.
        apply String.eqb_neq. congruence. }
      assert (strict_eq (cb_type body) "bank" = false) as ->.
      { destruct (cb_type body) as [t|]; [|reflexivity]. simpl.
        apply String.eqb_neq. congruence. }
      repeat split.
Qed.

(** X14.  When [JSON.parse] reads back what [JSON.stringify] wrote, a
    charge and its webhook agree on the funds: a verified charge.succeeded
    event carrying the metadata that [charge] put on the payment, handled
    with all steps succeeding, writes one FundDonation per fund of the
    charge request, with that fund's id and amount. *)
Theorem charge_funds_reach_webhook body fl req db c secretKey ev pmd details message cust :
  cb_funds body = Some fl ->
  JSON_stringify fl <> EmptyString ->
  JSON_parse (JSON_stringify fl) = Returned fl ->
  metadata (ev_data ev)
  = Some {| funds := cp_metadata_funds (Donate.chargePaymentData body) |} ->
  verified req db c secretKey ev ->
  ev_type ev = "charge.succeeded" ->
  subscriptionEvent (ev_data ev) = false ->
  paymentMethodDetailsOf secretKey (ev_data ev) = Returned pmd ->
  extractPaymentDetails pmd = Returned details ->
  eventMessage (ev_data ev) = Returned message ->
  stored_customer c (customer (ev_data ev)) db = Some cust ->
  (forall call, failing call = false) ->
  exists rows,
    fundDonations (snd (init req db)) = fundDonations db ++ rows /\
    Forall2
      (fun fund row => fd_fundId row = fund_id fund /\ fd_amount row = fund_amount fund)
      fl rows.
Proof.
  intros Hfunds Htext Hround Hmeta Hv Ht Hsub Hp He Hm Hcust Hok.
  assert (Hfl : fundsOf c (ev_data ev) db = (Returned fl, db)).
  { rewrite charge_metadata, Hfunds in Hmeta. simpl in Hmeta.
    eapply fundsOf_metadata; [exact Hmeta | | exact Hround].
    simpl. apply String.eqb_neq in Htext. now rewrite Htext. }
  destruct (init_donation_runs req db c secretKey ev pmd details message cust fl Hv)
    as (batch & i & rows & _ & _ & _ & _ & Hfd & Hall & _); auto.
  - now rewrite Ht, Hsub.
  - now rewrite Ht.
  - exists rows. split; [exact Hfd|].
    eapply Forall2_impl; [|exact Hall]. cbv beta. intros f r H. split; apply H.
Qed.

End ChargeProperties.

Section DonationRoutes.

Context {env : Collaborators} {backend : DonationsBackend}.

(** ** src/controllers/DonationController.ts *)

Lemma snd_bind_ret_of {A B} (m : Task A) (f : A -> B) db :
  snd (bind m (fun a => ret (f a)) db) = snd (m db).
Proof. unfold bind. destruct (m db) as [[a|e] db']; reflexivity. Qed.

Lemma donation_saves_stamped c body db r :
  In r (donations
          (snd (promise_all
                  (map (fun d => donation_save (set_d_churchId c d)) body) db))) ->
  In r (donations db) \/ d_churchId r = c.
Proof.
  revert db. induction body as [|d body IH]; intros db; cbn [map promise_all].
  - simpl. auto.
  - destruct (donation_save (set_d_churchId c d) db) as [o db1] eqn:E.
    specialize (IH db1).
    destruct (promise_all _ db1) as [os db2]. simpl in *. intros Hin.
    destruct (IH Hin) as [Hold | Hc]; [|now right].
    revert E Hold. unfold donation_save, repo, throw, save_row.
    destruct (failing DonationSave); [intros E; inversion E; subst; auto|].
    destruct (Js.truthy (d_id (set_d_churchId c d)));
      intros E; inversion E; subst; simpl; intros Hold;
      apply in_app_or in Hold; destruct Hold as [Hold | [<- | []]]; auto.
    apply filter_In in Hold. left. apply Hold.
Qed.

Lemma donation_saves_return (f : Donation -> Donation) body db :
  failing DonationSave = false ->
  exists rows db',
    promise_all (map (fun d => donation_save (f d)) body) db = (Returned rows, db') /\
    Forall2 (fun d r => exists i, r = set_d_id i (f d)) body rows.
Proof.
  intros H. revert db. induction body as [|d body IH]; intros db; cbn [map promise_all].
  - eexists _, _. split; [reflexivity | constructor].
  - destruct (donation_save_returns (f d) db H) as (don & db2 & i & E & Hd & _).
    rewrite E. destruct (IH db2) as (rows & db' & E' & H2). rewrite E'.
    eexists _, _. split; [reflexivity|]. constructor; [now exists i | exact H2].
Qed.

(** A save leaves every other row of the table in place: a row is only
    dropped for the saved one, which then has its id and tenant. *)
Lemma donation_save_keeps_or_replaces d db r :
  failing DonationSave = false ->
  In r (donations db) ->
  In r (donations (snd (donation_save d db))) \/
  (d_id r = d_id d /\ d_churchId r = d_churchId d /\ Js.truthy (d_id d) = true).
Proof.
  intros H Hin. unfold donation_save. rewrite repo_ok by exact H.
  unfold save_row. destruct (Js.truthy (d_id d)) eqn:E; simpl.
  - destruct (same_id (Js.to_str (d_id d)) (d_id r) && (d_churchId r =? d_churchId d))
      eqn:Hsame.
    + right. apply andb_prop in Hsame. destruct Hsame as [Hi Hc].
      apply String.eqb_eq in Hc.
      destruct (d_id d) as [i|]; [|discriminate]. simpl in Hi.
      unfold same_id in Hi. destruct (d_id r) as [k|]; [|discriminate].
      apply String.eqb_eq in Hi. subst k. auto.
    + left. apply in_or_app. left. apply filter_In. split; [exact Hin|].
      now rewrite Hsame.
  - left. apply in_or_app. now left.
Qed.

Lemma donation_saves_stored (f : Donation -> Donation) body db :
  failing DonationSave = false ->
  exists rows db',
    promise_all (map (fun d => donation_save (f d)) body) db = (Returned rows, db') /\
    Forall2 (fun d r => exists i, r = set_d_id i (f d)) body rows /\
    (forall r, In r (donations db) ->
               In r (donations db') \/
               exists r', In r' rows /\ d_id r' = d_id r /\ d_churchId r' = d_churchId r) /\
    (forall pre r post,
        rows = pre ++ r :: post ->
        In r (donations db') \/
        exists r', In r' post /\ d_id r' = d_id r /\ d_churchId r' = d_churchId r) /\
    (Forall (fun d => Js.truthy (d_id (f d)) = false) body ->
     donations db' = donations db ++ rows).
Proof.
  intros H. revert db. induction body as [|d body IH]; intros db; cbn [map promise_all].
  - eexists _, _. split; [reflexivity|]. split; [constructor|].
    split; [auto|]. split.
    + intros [|? ?] r post E; discriminate.
    + intros _. now rewrite app_nil_r.
  - destruct (donation_save_stored (f d) db H)
      as (i & db1 & E & _ & _ & Hin & Hhas & Hnew).
    pose proof (donation_save_keeps_or_replaces (f d) db) as Hkeep.
    rewrite E in *. cbn [snd] in Hkeep.
    destruct (IH db1) as (rows & db' & E' & Hall & Hold & Hrows & Happ). rewrite E'.
    eexists _, _. split; [reflexivity|].
    split; [constructor; [now exists i | exact Hall]|].
    assert (Hfirst : forall r, In r (donations db1) ->
                     In r (donations db') \/
                     exists r', In r' rows /\ d_id r' = d_id r
                                /\ d_churchId r' = d_churchId r)
      by exact Hold.
    split; [|split].
    + intros r Hr. destruct (Hkeep r H Hr) as [Hr1 | (Hi & Hc & Ht)].
      * destruct (Hfirst r Hr1) as [? | (r' & Hr' & ?)]; [now left|].
        right. exists r'. split; [now right | assumption].
      * right. exists (set_d_id i (f d)). split; [now left|].
        simpl. rewrite Hi. split; [|now rewrite Hc].
        symmetry. now apply Hhas.
    + intros pre r post Eq. destruct pre as [|r0 pre]; simpl in Eq.
      * injection Eq as <- <-. apply Hfirst. exact Hin.
      * injection Eq as _ Eq. now apply (Hrows pre).
    + intros Hnone. inversion Hnone as [|? ? Hd Hrest]; subst.
      rewrite (Happ Hrest). destruct (Hnew Hd) as [_ ->].
      now rewrite <- app_assoc.
Qed.

(** X15.  POST /donations stores every donation under the tenant of the
    authenticated user, whatever tenant the body names: after the call,
    every Donation that was not in the store before belongs to that
    tenant, however many saves were refused.  When the saves are accepted,
    the reply lists one row per posted donation, each the posted donation
    with the user's tenant and an id; every row of the reply is in the
    store afterwards unless a later row of the reply has its id (and
    tenant), which then took its place; and when no posted donation
    carries an id, the rows of the reply are appended to the stored
    donations, in order. *)
Theorem save_stamps_tenant au body db :
  checkAccess au DonationsEdit = true ->
  (forall r,
      In r (donations (snd (DonationController.save au body db))) ->
      In r (donations db) \/ d_churchId r = au_churchId au) /\
  (failing DonationSave = false ->
   exists rows,
     fst (DonationController.save au body db)
     = Returned (DModels (convertAllToModel (au_churchId au) rows)) /\
     Forall2 (fun d r => exists i, r = set_d_id i (set_d_churchId (au_churchId au) d))
             body rows /\
     (forall pre r post,
         rows = pre ++ r :: post ->
         In r (donations (snd (DonationController.save au body db))) \/
         exists r', In r' post /\ d_id r' = d_id r /\ d_churchId r' = d_churchId r) /\
     (Forall (fun d => Js.truthy (d_id d) = false) body ->
      donations (snd (DonationController.save au body db)) = donations db ++ rows)).
Proof.
  intros Hedit. unfold DonationController.save. rewrite Hedit. cbn [negb]. split.
  - intros r. rewrite snd_bind_ret_of. apply donation_saves_stamped.
  - intros H.
    destruct (donation_saves_stored (set_d_churchId (au_churchId au)) body db H)
      as (rows & db' & E & Hall & _ & Hrows & Happ).
    exists rows. rewrite snd_bind_ret_of.
    erewrite bind_returned by exact E. rewrite E. cbn [fst snd].
    split; [reflexivity|]. split; [exact Hall|]. split; [exact Hrows|].
    intros Hnone. apply Happ.
    eapply Forall_impl; [|exact Hnone]. intros d Hd. exact Hd.
Qed.

(** X16.  The routes of the donation controller answer 401 and leave the
    store untouched when the user lacks the permission they ask for: view
    for GET /donations/:id and GET /donations, edit for POST /donations
    and DELETE /donations/:id. *)
Theorem donation_routes_gated au db :
  (checkAccess au DonationsView = false ->
   (forall id, DonationController.get au id db = (Returned (DJson 401), db)) /\
   (forall query, DonationController.getAll au query db = (Returned (DJson 401), db))) /\
  (checkAccess au DonationsEdit = false ->
   (forall body, DonationController.save au body db = (Returned (DJson 401), db)) /\
   (forall id, DonationController.delete au id db = (Returned (DJson 401), db))).
Proof.
  split; intros H; split; intros x;
    unfold DonationController.get, DonationController.getAll,
           DonationController.save, DonationController.delete;
    now rewrite H.
Qed.

(** X17.  GET /donations reads the store and never writes it, whatever
    the query and the user's permission; and a batchId in the query wins
    over a personId: with a batchId the reply is the same whatever
    personId the query carries. *)
Theorem getAll_batch_first au query db :
  snd (DonationController.getAll au query db) = db /\
  forall batchId,
    q_batchId query = Some batchId ->
    forall personId,
      DonationController.getAll au query db
      = DonationController.getAll au
          {| q_batchId := Some batchId; q_personId := personId |} db.
Proof.
  split.
  - unfold DonationController.getAll.
    destruct (negb (checkAccess au DonationsView)); [reflexivity|].
    rewrite snd_bind_ret_of. destruct (q_batchId query); [reflexivity|].
    destruct (q_personId query); reflexivity.
  - intros batchId Hb personId. unfold DonationController.getAll. now rewrite Hb.
Qed.

End DonationRoutes.

Section Redelivery.

Context {env : Collaborators}.

(** X18.  Delivering again a verified event that is already logged and is
    neither charge.succeeded nor invoice.paid changes nothing: once its
    payment details are read and the log is consulted, the closure
    resolves without a value and the store is as before. *)
Theorem init_replay_of_logged_other_event req db c secretKey ev entry pmd details :
  verified req db c secretKey ev ->
  isDonationEvent (ev_type ev) = false ->
  logged_event c (ev_id ev) db = Some entry ->
  failing EventLogLoad = false ->
  paymentMethodDetailsOf secretKey (ev_data ev) = Returned pmd ->
  extractPaymentDetails pmd = Returned details ->
  init req db = (Returned Undefined, db).
Proof.
  intros Hv Ht Hlogged Hl Hp He. rewrite (init_verified _ _ _ _ _ Hv).
  rewrite (init_event_blocks _ _ _ _ _ _
             (not_donation_event_not_suppressed ev Ht) Hp He).
  erewrite bind_returned by (eapply init_logEvent_skipped; eassumption).
  erewrite bind_returned by (now apply init_logDonation_skipped).
  reflexivity.
Qed.

End Redelivery.

(** * Runs of the other routes and of the failing paths *)

Lemma init_confined_witness :
  confined "church1" Sample.db0
    (snd (@init Sample.live (Sample.webhook "charge" Sample.good) Sample.db0)).
Proof.
  exact (@init_confined Sample.live (Sample.webhook "charge" Sample.good) Sample.db0
           "church1" eq_refl).
Defined.

Lemma after_charge_unique : unique_events Sample.after_charge.
Proof.
  unfold unique_events. vm_compute. constructor; [intros [] | constructor].
Defined.

Lemma init_keeps_events_unique_witness :
  unique_events Sample.after_charge /\
  unique_events
    (snd (@init Sample.live (Sample.webhook "charge" Sample.good) Sample.after_charge)).
Proof.
  split; [exact after_charge_unique|].
  exact (@init_keeps_events_unique Sample.live (Sample.webhook "charge" Sample.good)
           Sample.after_charge after_charge_unique).
Defined.

Lemma init_missing_parameter_witness :
  @init Sample.live
    {| query_churchId := None; header_stripe_signature := Some Sample.good;
       rawBody := "charge" |} Sample.db0
  = (Thrown TypeError, Sample.db0) /\
  @init Sample.live
    {| query_churchId := Some "church1"; header_stripe_signature := None;
       rawBody := "charge" |} Sample.db0
  = (Thrown TypeError, Sample.db0).
Proof.
  split.
  - exact (proj1 (@init_missing_parameter Sample.live
                    {| query_churchId := None;
                       header_stripe_signature := Some Sample.good;
                       rawBody := "charge" |} Sample.db0) eq_refl).
  - refine (proj2 (@init_missing_parameter Sample.live
                     {| query_churchId := Some "church1";
                        header_stripe_signature := None;
                        rawBody := "charge" |} Sample.db0)
              "church1" _ [] eq_refl eq_refl eq_refl _ eq_refl).
    discriminate.
Defined.

Lemma orphan_verified :
  @verified Parish.live (Sample.webhook "orphan" Sample.good) Sample.db0
            "church1" "sk_live" Parish.orphan_invoice.
Proof. sample_verified. Defined.

Lemma init_failure_before_log_witness :
  @init Parish.live (Sample.webhook "orphan" Sample.good) Sample.db0
  = (Thrown ProviderError, Sample.db0).
Proof.
  exact (proj1 (@init_failure_before_log Parish.live
                  (Sample.webhook "orphan" Sample.good) Sample.db0 "church1" "sk_live"
                  Parish.orphan_invoice ProviderError orphan_verified eq_refl)
           eq_refl).
Defined.

Lemma stranger_verified :
  @verified Parish.live (Sample.webhook "stranger" Sample.good) Sample.db0
            "church1" "sk_live" Parish.stranger_event.
Proof. sample_verified. Defined.

Lemma init_failure_after_log_witness :
  @init Parish.live (Sample.webhook "stranger" Sample.good) Sample.db0
  = (Thrown TypeError,
     update_eventLogs
       (fun l => l ++ [eventLogOf "church1" Parish.stranger_event
                         (Some "Payment complete.")])
       Sample.db0).
Proof.
  exact (proj1 (@init_failure_after_log Parish.live
                  (Sample.webhook "stranger" Sample.good) Sample.db0 "church1" "sk_live"
                  Parish.stranger_event (Some Sample.card) (Js.Label "Card", Some "4242")
                  (Some "Payment complete.")
                  stranger_verified eq_refl eq_refl eq_refl eq_refl eq_refl eq_refl
                  eq_refl eq_refl eq_refl)
           eq_refl).
Defined.

Lemma logDonation_partial_writes_witness :
  exists donation n,
    In donation
       (donations (snd (@logDonation Parish.patchy Sample.offline_gift
                                     Sample.two_funds Sample.db0))) /\
    fst (@logDonation Parish.patchy Sample.offline_gift Sample.two_funds Sample.db0)
    = Thrown PersistenceFailure /\
    fundDonations (snd (@logDonation Parish.patchy Sample.offline_gift
                                     Sample.two_funds Sample.db0))
    = fundDonations Sample.db0
      ++ with_ids Sample.genId set_fd_id n
           (map (fundDonationOf donation)
                [{| fund_id := Some "fund_a"; fund_amount := 30 |}]).
Proof.
  exact (@logDonation_partial_writes Parish.patchy Sample.offline_gift
           Sample.two_funds Sample.db0 eq_refl eq_refl).
Defined.

Lemma logDonation_refused_witness :
  fst (@logDonation Sample.degraded Sample.offline_gift Sample.two_funds Sample.db0)
  = Thrown PersistenceFailure /\
  donations (snd (@logDonation Sample.degraded Sample.offline_gift Sample.two_funds
                               Sample.db0))
  = donations Sample.db0 /\
  fundDonations (snd (@logDonation Sample.degraded Sample.offline_gift
                                   Sample.two_funds Sample.db0))
  = fundDonations Sample.db0.
Proof.
  exact (proj2 (@logDonation_refused Sample.degraded Sample.offline_gift
                  Sample.two_funds Sample.db0) eq_refl eq_refl).
Defined.

Lemma subscribe_refused_witness :
  @subscribe Sample.live "church2" Sample.subscribe_body Sample.db0
  = (Returned (Json 401), Sample.db0) /\
  @subscribe Parish.unsubscribable "church1" Sample.subscribe_body Sample.db0
  = (Thrown PersistenceFailure, Sample.db0) /\
  fst (@subscribe Sample.live "church1" Parish.fundless_body Sample.db0)
  = Thrown TypeError /\
  subscriptions (snd (@subscribe Sample.live "church1" Parish.fundless_body Sample.db0))
  = [ {| s_id := "sub_1"; s_churchId := "church1"; s_personId := Some "person_1";
         s_customerId := Some "cus_1" |} ] /\
  subscriptionFunds (snd (@subscribe Sample.live "church1" Parish.fundless_body
                                     Sample.db0))
  = [].
Proof.
  split; [|split].
  - exact (proj1 (@subscribe_refused Sample.live "church2" Sample.subscribe_body
                    Sample.db0 eq_refl) eq_refl).
  - refine (proj1 (proj2 (proj2 (proj2 (@subscribe_refused Parish.unsubscribable
                                          "church1" Sample.subscribe_body Sample.db0
                                          eq_refl)
                                   _ [] eq_refl _)
                            {| sub_id := "sub_1" |} eq_refl)
                     {| p_id := Some "person_1" |} eq_refl)
              eq_refl).
    discriminate.
  - assert (E : @subscribe Sample.live "church1" Parish.fundless_body Sample.db0
                = (Thrown TypeError,
                   update_subscriptions
                     (fun l => filter (fun r => negb ((s_id r =? "sub_1")
                                                      && (s_churchId r =? "church1"))) l
                               ++ [{| s_id := "sub_1"; s_churchId := "church1";
                                      s_personId := Some "person_1";
                                      s_customerId := Some "cus_1" |}])
                     Sample.db0)).
    { refine (proj2 (proj2 (proj2 (proj2 (@subscribe_refused Sample.live "church1"
                                            Parish.fundless_body Sample.db0 eq_refl)
                                     _ [] eq_refl _)
                              {| sub_id := "sub_1" |} eq_refl)
                       {| p_id := Some "person_1" |} eq_refl)
                eq_refl eq_refl).
      discriminate. }
    rewrite E. repeat split.
Defined.

Lemma subscribe_contract_witness :
  exists rows,
    fst (@subscribe Sample.live "church1" Sample.subscribe_body Sample.db0)
    = Returned (Rows rows) /\
    In {| s_id := "sub_1"; s_churchId := "church1"; s_personId := Some "person_1";
          s_customerId := Some "cus_1" |}
       (subscriptions (snd (@subscribe Sample.live "church1" Sample.subscribe_body
                                       Sample.db0))) /\
    Forall2
      (fun fund row =>
         sf_churchId row = "church1" /\ sf_subscriptionId row = "sub_1" /\
         sf_fundId row = fund_id fund /\ sf_amount row = fund_amount fund /\
         exists j, sf_id row = Some j)
      [ {| fund_id := Some "fund_a"; fund_amount := 15 |};
        {| fund_id := Some "fund_b"; fund_amount := 10 |} ]
      rows /\
    subscriptionFunds (snd (@subscribe Sample.live "church1" Sample.subscribe_body
                                       Sample.db0))
    = subscriptionFunds Sample.db0 ++ rows /\
    donations (snd (@subscribe Sample.live "church1" Sample.subscribe_body Sample.db0))
    = donations Sample.db0 /\
    fundDonations (snd (@subscribe Sample.live "church1" Sample.subscribe_body
                                   Sample.db0))
    = fundDonations Sample.db0.
Proof.
  refine (@subscribe_contract Sample.live "church1" Sample.subscribe_body Sample.db0
            _ [] {| sub_id := "sub_1" |} {| p_id := Some "person_1" |}
            [ {| fund_id := Some "fund_a"; fund_amount := 15 |};
              {| fund_id := Some "fund_b"; fund_amount := 10 |} ]
            eq_refl eq_refl (fun _ => eq_refl) eq_refl _ eq_refl eq_refl eq_refl).
  discriminate.
Defined.

Lemma init_records_donation_witness :
  exists batch donation i rows,
    fst (@init Sample.live (Sample.webhook "charge" Sample.good) Sample.db0)
    = Returned Undefined /\
    b_churchId batch = "church1" /\ b_current batch = true /\
    donations (snd (@init Sample.live (Sample.webhook "charge" Sample.good) Sample.db0))
    = donations Sample.db0 ++ [donation] /\
    d_id donation = Some i /\
    d_churchId donation = "church1" /\
    d_batchId donation = Some (b_id batch) /\
    d_personId donation = Some "person_1" /\
    d_method donation = Js.Label "Card" /\
    d_methodDetails donation = Some "4242" /\
    d_amount donation = Js.Num (5000 / 100) /\
    d_donationDate donation = Some 1600000000000%Z /\
    fundDonations (snd (@init Sample.live (Sample.webhook "charge" Sample.good)
                              Sample.db0))
    = fundDonations Sample.db0 ++ rows /\
    Forall2
      (fun fund row =>
         fd_donationId row = Some i /\ fd_fundId row = fund_id fund /\
         fd_amount row = fund_amount fund /\ fd_churchId row = "church1" /\
         exists j, fd_id row = Some j)
      Sample.two_funds rows /\
    current_batch "church1"
      (snd (@init Sample.live (Sample.webhook "charge" Sample.good) Sample.db0))
    = Some batch /\
    (current_batch "church1" Sample.db0 = Some batch /\
     donationBatches (snd (@init Sample.live (Sample.webhook "charge" Sample.good)
                                 Sample.db0))
     = donationBatches Sample.db0
     \/
     current_batch "church1" Sample.db0 = None /\
     donationBatches (snd (@init Sample.live (Sample.webhook "charge" Sample.good)
                                 Sample.db0))
     = donationBatches Sample.db0 ++ [batch]).
Proof.
  exact (@init_records_donation Sample.live (Sample.webhook "charge" Sample.good)
           Sample.db0 "church1" "sk_live" Sample.charge_event
           (Some Sample.card) (Js.Label "Card", Some "4242") (Some "Payment complete.")
           {| c_id := "cus_1"; c_churchId := "church1"; c_personId := Some "person_1" |}
           Sample.two_funds
           charge_verified_first eq_refl eq_refl eq_refl eq_refl eq_refl eq_refl
           eq_refl eq_refl eq_refl eq_refl eq_refl eq_refl (fun _ => eq_refl)).
Defined.

Lemma log_stores_donation_and_fund_witness :
  exists batch donation i row,
    fst (@log Sample.live Sample.log_request Sample.db0) = Returned Undefined /\
    b_churchId batch = "church1" /\
    current_batch "church1" (snd (@log Sample.live Sample.log_request Sample.db0))
    = Some batch /\
    donations (snd (@log Sample.live Sample.log_request Sample.db0))
    = donations Sample.db0 ++ [donation] /\
    d_id donation = Some i /\
    d_batchId donation = Some (b_id batch) /\
    d_amount donation = d_amount Sample.offline_gift /\
    fundDonations (snd (@log Sample.live Sample.log_request Sample.db0))
    = fundDonations Sample.db0 ++ [row] /\
    fd_donationId row = Some i /\
    fd_fundId row = Some "fund_a" /\
    fd_amount row = 40 /\
    fd_churchId row = "church1".
Proof.
  assert (Hk : @stored_key Sample.live "church1" Sample.db0 <> EmptyString)
    by discriminate.
  destruct (@log_stores_donation_and_fund Sample.live Sample.log_request Sample.db0
              eq_refl Hk eq_refl eq_refl (fun _ => eq_refl))
    as (batch & donation & i & row & H1 & H2 & _ & H4 & _ & _ & _ & _ & Happ & H10
        & H11 & _ & H13 & _ & _ & _ & _ & H18 & H19 & H20 & H21 & H22).
  exists batch, donation, i, row.
  exact (conj H1 (conj H2 (conj H4 (conj (Happ eq_refl) (conj H10 (conj H11
          (conj H13 (conj H18 (conj H19 (conj H20 (conj H21 H22))))))))))).
Defined.

Lemma charge_outcome_witness :
  @Donate.charge Sample.live Parish.provider "church1" Parish.card_charge Sample.db0
  = (Returned (ChargeResult {| dr_raw := "pi_1" |}), Sample.db0) /\
  @Donate.charge Sample.live Parish.provider "church2" Parish.card_charge Sample.db0
  = (Returned (ChargeJson 401), Sample.db0).
Proof.
  destruct (@charge_outcome Sample.live Parish.provider "church1" Parish.card_charge
              Sample.db0) as [Hsame Hout].
  destruct (@charge_outcome Sample.live Parish.provider "church2" Parish.card_charge
              Sample.db0) as [Hsame2 Hout2].
  split.
  - apply injective_projections; [|exact Hsame].
    refine (proj2 (Hout eq_refl) _). discriminate.
  - apply injective_projections; [|exact Hsame2].
    exact (proj1 (Hout2 eq_refl) eq_refl).
Defined.

Lemma charge_payment_shape_witness :
  (cp_payment_method (@Donate.chargePaymentData Parish.provider Parish.card_charge)
   = Some "pm_1" /\
   cp_confirm (@Donate.chargePaymentData Parish.provider Parish.card_charge)
   = Some true /\
   cp_off_session (@Donate.chargePaymentData Parish.provider Parish.card_charge)
   = Some true /\
   cp_source (@Donate.chargePaymentData Parish.provider Parish.card_charge) = None) /\
  (cp_source (@Donate.chargePaymentData Parish.provider Parish.bank_charge)
   = Some "ba_1" /\
   cp_payment_method (@Donate.chargePaymentData Parish.provider Parish.bank_charge)
   = None /\
   cp_confirm (@Donate.chargePaymentData Parish.provider Parish.bank_charge) = None /\
   cp_off_session (@Donate.chargePaymentData Parish.provider Parish.bank_charge)
   = None) /\
  (cp_payment_method (@Donate.chargePaymentData Parish.provider Parish.cheque_charge)
   = None /\
   cp_source (@Donate.chargePaymentData Parish.provider Parish.cheque_charge) = None /\
   cp_confirm (@Donate.chargePaymentData Parish.provider Parish.cheque_charge)
   = None /\
   cp_off_session (@Donate.chargePaymentData Parish.provider Parish.cheque_charge)
   = None).
Proof.
  split; [|split].
  - exact (proj1 (proj2 (proj2 (proj2 (proj2
             (@charge_payment_shape Parish.provider Parish.card_charge))))) eq_refl).
  - exact (proj1 (proj2 (proj2 (proj2 (proj2 (proj2
             (@charge_payment_shape Parish.provider Parish.bank_charge)))))) eq_refl).
  - refine (proj2 (proj2 (proj2 (proj2 (proj2 (proj2
              (@charge_payment_shape Parish.provider Parish.cheque_charge)))))) _ _);
      discriminate.
Defined.

Lemma charge_funds_reach_webhook_witness :
  exists rows,
    fundDonations (snd (@init Sample.live (Sample.webhook "charge" Sample.good)
                              Sample.db0))
    = fundDonations Sample.db0 ++ rows /\
    Forall2
      (fun fund row => fd_fundId row = fund_id fund /\ fd_amount row = fund_amount fund)
      Sample.two_funds rows.
Proof.
  refine (@charge_funds_reach_webhook Sample.live Parish.provider Parish.card_charge
            Sample.two_funds (Sample.webhook "charge" Sample.good) Sample.db0
            "church1" "sk_live" Sample.charge_event
            (Some Sample.card) (Js.Label "Card", Some "4242") (Some "Payment complete.")
            {| c_id := "cus_1"; c_churchId := "church1"; c_personId := Some "person_1" |}
            eq_refl _ eq_refl eq_refl charge_verified_first eq_refl eq_refl
            eq_refl eq_refl eq_refl eq_refl (fun _ => eq_refl)).
  discriminate.
Defined.

Lemma save_stamps_tenant_witness :
  (forall r,
      In r (donations (snd (@DonationController.save Sample.live Parish.backend
                              Parish.treasurer Parish.posted Sample.db0))) ->
      In r (donations Sample.db0) \/ d_churchId r = "church1") /\
  exists rows,
    fst (@DonationController.save Sample.live Parish.backend Parish.treasurer
           Parish.posted Sample.db0)
    = Returned (DModels rows) /\
    Forall2 (fun d r => exists i, r = set_d_id i (set_d_churchId "church1" d))
            Parish.posted rows /\
    donations (snd (@DonationController.save Sample.live Parish.backend
                      Parish.treasurer Parish.posted Sample.db0))
    = donations Sample.db0 ++ rows.
Proof.
  destruct (@save_stamps_tenant Sample.live Parish.backend Parish.treasurer
              Parish.posted Sample.db0 eq_refl) as [Hall Hrows].
  split; [exact Hall|].
  destruct (Hrows eq_refl) as (rows & Hreply & Hshape & _ & Happ).
  exists rows. split; [exact Hreply|]. split; [exact Hshape|].
  apply Happ. repeat constructor.
Defined.

Lemma donation_routes_gated_witness :
  @DonationController.get Parish.backend Parish.usher "b" Sample.after_charge
  = (Returned (DJson 401), Sample.after_charge) /\
  @DonationController.delete Parish.backend Parish.usher "b"
    Sample.after_charge
  = (Returned (DJson 401), Sample.after_charge).
Proof.
  destruct (@donation_routes_gated Sample.live Parish.backend Parish.usher
              Sample.after_charge) as [Hview Hedit].
  split.
  - exact (proj1 (Hview eq_refl) "b").
  - exact (proj2 (Hedit eq_refl) "b").
Defined.

Lemma getAll_batch_first_witness :
  snd (@DonationController.getAll Parish.backend Parish.treasurer
         {| q_batchId := Some "a"; q_personId := Some "person_9" |} Sample.after_charge)
  = Sample.after_charge /\
  @DonationController.getAll Parish.backend Parish.treasurer
    {| q_batchId := Some "a"; q_personId := Some "person_9" |} Sample.after_charge
  = @DonationController.getAll Parish.backend Parish.treasurer
      {| q_batchId := Some "a"; q_personId := None |} Sample.after_charge.
Proof.
  destruct (@getAll_batch_first Parish.backend Parish.treasurer
              {| q_batchId := Some "a"; q_personId := Some "person_9" |}
              Sample.after_charge) as [Hsame Hfirst].
  split; [exact Hsame | exact (Hfirst "a" eq_refl None)].
Defined.

Lemma failed_verified_again :
  @verified Sample.live (Sample.webhook "failed" Sample.good)
            (snd (@init Sample.live (Sample.webhook "failed" Sample.good) Sample.db0))
            "church1" "sk_live" Sample.failed_event.
Proof. sample_verified. Defined.

Lemma init_replay_of_logged_other_event_witness :
  @init Sample.live (Sample.webhook "failed" Sample.good)
        (snd (@init Sample.live (Sample.webhook "failed" Sample.good) Sample.db0))
  = (Returned Undefined,
     snd (@init Sample.live (Sample.webhook "failed" Sample.good) Sample.db0)).
Proof.
  exact (@init_replay_of_logged_other_event Sample.live
           (Sample.webhook "failed" Sample.good)
           (snd (@init Sample.live (Sample.webhook "failed" Sample.good) Sample.db0))
           "church1" "sk_live" Sample.failed_event
           (eventLogOf "church1" Sample.failed_event
              (Some "Your card was declined. The bank did not return any further details."))
           (Some Sample.card) (Js.Label "Card", Some "4242")
           failed_verified_again eq_refl eq_refl eq_refl eq_refl eq_refl).
Defined.
